(** * bench_python: latency histogram, worker loop, aggregation and runner

    A shallow embedding of [bench_python.py] and the properties of its
    measurement core.

    Modelling conventions.
    - Python [int] is [Z]; [//] on integers is [Z.div] (both round towards
      minus infinity).
    - [float('inf')] is the constructor [Inf] of [latency]; Python compares an
      [int] with a [float] exactly, so the order on [latency] is the order of
      the extended integers.  The initial [max_latency = 0.0] is the number 0.
    - A one-dimensional numpy array of counters is a [list Z].  The counters
      are [float64] values that only ever receive [+ 1] and sums of such
      values; they are exact integers below 2^53, and are modelled by [Z].
    - A raised Python exception is [Err e]; code that can raise lives in the
      [result] monad.
    - The clock and the workload are the environment: a worker is run on the
      list of outcomes of the calls of its measured phase, each either
      returning after some elapsed nanoseconds or raising.  *)

From stdpp Require Import base numbers list strings gmap.

Local Open Scope Z_scope.

(** ** Exceptions and the error monad *)

Inductive exn : Type :=
  | ValueError_negative_dimensions  (* np.zeros of a negative size *)
  | ValueError_broadcast            (* np.add: operands could not be broadcast together *)
  | ValueError_max_workers          (* ProcessPoolExecutor(max_workers <= 0) *)
  | IndexError                      (* array index out of bounds *)
  | ZeroDivisionError               (* integer division or modulo by zero *)
  | OSError                         (* print to a broken stdout *)
  | WorkloadFailure.                (* raised by a workload capability *)

Inductive result (A : Type) : Type :=
  | Ok (a : A)
  | Err (e : exn).

Arguments Ok {A} a.
Arguments Err {A} e.

Definition bind {A B : Type} (m : result A) (k : A -> result B) : result B :=
  match m with
  | Ok a => k a
  | Err e => Err e
  end.

Notation "x <- m ;; k" := (bind m (fun x => k))
  (at level 100, m at next level, right associativity).

Definition is_ok {A : Type} (m : result A) : bool :=
  match m with Ok _ => true | Err _ => false end.

(** ** Latencies *)

(** A latency in units of 10 microseconds, or [float('inf')]. *)
Inductive latency : Type :=
  | Fin (t : Z)
  | Inf.

(** Python's [a < b] on latencies. *)
Definition lat_ltb (a b : latency) : bool :=
  match a, b with
  | Fin x, Fin y => x <? y
  | Fin _, Inf => true
  | Inf, _ => false
  end.

(** The order [a <= b] of the extended integers. *)
Definition lat_le (a b : latency) : Prop :=
  match a, b with
  | Fin x, Fin y => x <= y
  | _, Inf => True
  | Inf, Fin _ => False
  end.

(** ** numpy arrays of counters *)

(** [np.zeros((n,))]. *)
Definition np_zeros (n : Z) : result (list Z) :=
  if n <? 0 then Err ValueError_negative_dimensions
  else Ok (replicate (Z.to_nat n) 0).

(** [a[i] += 1]: a negative index counts from the end, an index outside
    [-len(a) .. len(a) - 1] raises [IndexError]. *)
Definition np_incr (a : list Z) (i : Z) : result (list Z) :=
  let n := Z.of_nat (length a) in
  if (i <? - n) || (n <=? i) then Err IndexError
  else Ok (alter Z.succ (Z.to_nat (if i <? 0 then i + n else i)) a).

(** Element [i] of [a] seen through broadcasting: an array of length 1 is
    stretched, its only element read at every index. *)
Definition bget (a : list Z) (i : nat) : Z :=
  if (length a =? 1)%nat then a !!! 0%nat else a !!! i.

(** The broadcast of two one-dimensional shapes. *)
Definition bshape (n m : nat) : result nat :=
  if (n =? m)%nat then Ok n
  else if (n =? 1)%nat then Ok m
  else if (m =? 1)%nat then Ok n
  else Err ValueError_broadcast.

(** [np.add(a, b)] on one-dimensional arrays: a new array of the broadcast
    shape; equal lengths are added elementwise, a length-1 operand is
    stretched, any other pair of lengths raises.  The elements are [float64]:
    the sum of two whole numbers is the exact sum as long as it does not
    exceed 2^53, and is rounded beyond.  The model adds exactly; what is
    proved of the sums of buckets is proved for counters in that range
    ([counters_exact], [exact_pair]), where the model and [float64] agree. *)
Definition np_add (a b : list Z) : result (list Z) :=
  k <- bshape (length a) (length b) ;;
  Ok ((fun i => bget a i + bget b i) <$> seq 0 k).

(** Sum over all buckets. *)
Definition hist_sum (h : list Z) : Z := foldr Z.add 0 h.

(** ** Data model *)

(** The tuple [(nqueries, latency_stats, min_latency, max_latency)] a worker
    returns. *)
Record raw_result : Type := RawResult {
  t_nqueries : Z;
  t_latency_stats : list Z;
  t_min_latency : latency;
  t_max_latency : Z
}.

(** [class Result(typing.NamedTuple)]; [latency_stats] is [None] when no
    worker result was aggregated. *)
Record Result : Type := MkResult {
  benchmark : string;
  queryname : string;
  nqueries : Z;
  duration : Z;
  min_latency : latency;
  max_latency : Z;
  latency_stats : option (list Z)
}.

(** The fields of the run configuration the code reads.  [timeout_ceil] is
    [math.ceil(ctx.timeout)]. *)
Record Context : Type := MkContext {
  concurrency : Z;
  ctx_duration : Z;
  timeout_ceil : Z;
  queries : list string
}.

(** ** Worker loop *)

(** Outcome of one [method(conn, rid)] of the measured phase:
    [time.monotonic_ns() - req_start] when it returns.  The clock is
    monotonic, so a real elapsed time is never negative; the code is modelled
    for every integer and the properties assume a non-negative one. *)
Inductive call : Type :=
  | Returns (elapsed_ns : Z)
  | Raises.

(** Length of a worker's histogram. *)
Definition hist_len (ctx : Context) : Z := timeout_ceil ctx * 100 * 1000 + 1.

(** One iteration of the measured loop after the call returned. *)
Definition measure (max_req_time : Z) (st : raw_result) (elapsed_ns : Z)
  : result raw_result :=
  let req_time := elapsed_ns `div` 10000 in
  let max_latency' :=
    if req_time >? t_max_latency st then req_time else t_max_latency st in
  let min_latency' :=
    if lat_ltb (Fin req_time) (t_min_latency st) then Fin req_time
    else t_min_latency st in
  let req_time' := if req_time >? max_req_time then max_req_time else req_time in
  latency_stats' <- np_incr (t_latency_stats st) req_time' ;;
  Ok (RawResult (t_nqueries st + 1) latency_stats' min_latency' max_latency').

(** The measured [while] loop, one step per call the clock allowed. *)
Fixpoint measured_phase (max_req_time : Z) (st : raw_result) (calls : list call)
  : result raw_result :=
  match calls with
  | [] => Ok st
  | Raises :: _ => Err WorkloadFailure
  | Returns elapsed_ns :: calls' =>
      st' <- measure max_req_time st elapsed_ns ;;
      measured_phase max_req_time st' calls'
  end.

(** [run_benchmark_method], from the creation of the histogram to the
    [return].  [init], [connect], the warm-up calls and [close] touch none of
    the returned values and are taken to succeed; [calls] are the calls the
    clock let into the measured phase.  [run_async_benchmark_method] is the
    same loop with [await] in front of the workload capabilities. *)
Definition run_benchmark_method (ctx : Context) (calls : list call)
  : result raw_result :=
  latency_stats0 <- np_zeros (hist_len ctx) ;;
  let max_req_time := Z.of_nat (length latency_stats0) - 1 in
  measured_phase max_req_time (RawResult 0 latency_stats0 Inf 0) calls.

(** ** Aggregator *)

(** The loop variables of [agg_results]. *)
Record agg_state : Type := AggState {
  a_min_latency : latency;
  a_max_latency : Z;
  a_nqueries : Z;
  a_latency_stats : option (list Z)
}.

(** Their values before the loop. *)
Definition agg_init : agg_state := AggState Inf 0 0 None.

(** Body of [for result in results]. *)
Definition agg_step (st : agg_state) (r : raw_result) : result agg_state :=
  let nqueries' := a_nqueries st + t_nqueries r in
  latency_stats' <-
    match a_latency_stats st with
    | None => Ok (t_latency_stats r)
    | Some h => np_add h (t_latency_stats r)
    end ;;
  let max_latency' :=
    if t_max_latency r >? a_max_latency st then t_max_latency r
    else a_max_latency st in
  let min_latency' :=
    if lat_ltb (t_min_latency r) (a_min_latency st) then t_min_latency r
    else a_min_latency st in
  Ok (AggState min_latency' max_latency' nqueries' (Some latency_stats')).

(** The loop [for result in results]. *)
Fixpoint agg_loop (st : agg_state) (results : list raw_result)
  : result agg_state :=
  match results with
  | [] => Ok st
  | r :: results' => st' <- agg_step st r ;; agg_loop st' results'
  end.

(** [agg_results]: the loop, then the [Result] built from its variables. *)
Definition agg_results (results : list raw_result)
    (benchname queryname : string) (duration : Z) : result Result :=
  st <- agg_loop agg_init results ;;
  Ok (MkResult benchname queryname (a_nqueries st) duration
        (a_min_latency st) (a_max_latency st) (a_latency_stats st)).

(** ** Dispatcher and benchmark runner *)

(** What the environment decides during a run: the outcomes of the measured
    calls of worker [i] of a query, and whether standard output is broken
    when the report of a query is printed. *)
Record World : Type := MkWorld {
  measured_calls : string -> nat -> list call;
  stdout_broken : string -> bool
}.

(** [[fut.result() for fut in ...]]: the results of all workers, or the
    first exception met. *)
Fixpoint collect {A : Type} (ms : list (result A)) : result (list A) :=
  match ms with
  | [] => Ok []
  | m :: ms' => a <- m ;; l <- collect ms' ;; Ok (a :: l)
  end.

(** [run_benchmark_sync]: one worker per concurrency unit, then the
    aggregation.  The workers are listed by index; the source iterates over
    the set of finished futures, in an order it does not choose.  The lookup
    [ids[queryname]] is taken to succeed. *)
Definition run_benchmark_sync (ctx : Context) (w : World)
    (benchname : string) (duration : Z) (queryname : string) : result Result :=
  if concurrency ctx <=? 0 then Err ValueError_max_workers
  else
    results <- collect
      ((fun i => run_benchmark_method ctx (measured_calls w queryname i))
         <$> seq 0 (Z.to_nat (concurrency ctx))) ;;
    agg_results results benchname queryname duration.

(** The lines of [print_result], with the numbers they show. *)
Inductive line : Type :=
  | L_header (benchname queryname : string)
  | L_queries (n : Z)
  | L_qps (q : Z)
  | L_min_latency (m : latency)
  | L_max_latency (m : Z)
  | L_blank.

(** What an observer of a run sees, in order. *)
Inductive event : Type :=
  | Dispatched (queryname : string)
  | Printed (l : line).

(** [print_result]: the lines are printed one by one, so the lines before a
    failing one are already out.  A broken standard output fails the first
    [print]; [result.nqueries // ctx.duration] fails the third when the
    duration is 0. *)
Definition print_result (ctx : Context) (w : World) (res : Result)
    (out : list event) : list event * result unit :=
  if stdout_broken w (queryname res) then (out, Err OSError)
  else
    let out1 := out ++ [Printed (L_header (benchmark res) (queryname res));
                        Printed (L_queries (nqueries res))] in
    if ctx_duration ctx =? 0 then (out1, Err ZeroDivisionError)
    else
      (out1 ++ [Printed (L_qps (nqueries res `div` ctx_duration ctx));
                Printed (L_min_latency (min_latency res));
                Printed (L_max_latency (max_latency res));
                Printed L_blank], Ok ()).

(** The loop [for queryname in ctx.queries] of [run_sync]. *)
Fixpoint run_queries (ctx : Context) (w : World) (benchname : string)
    (qs : list string) (results : list Result) (out : list event)
  : list event * result (list Result) :=
  match qs with
  | [] => (out, Ok results)
  | q :: qs' =>
      let out1 := out ++ [Dispatched q] in
      match run_benchmark_sync ctx w benchname (ctx_duration ctx) q with
      | Err e => (out1, Err e)
      | Ok res =>
          match print_result ctx w res out1 with
          | (out2, Err e) => (out2, Err e)
          | (out2, Ok _) => run_queries ctx w benchname qs' (results ++ [res]) out2
          end
      end
  end.

(** [run_sync] after the ids are loaded: what is observed, and the list of
    results or the exception that ended the run. *)
Definition run_sync (ctx : Context) (w : World) (benchname : string)
  : list event * result (list Result) :=
  run_queries ctx w benchname (queries ctx) [] [].

(** The query names dispatched in a run. *)
Definition dispatched (out : list event) : list string :=
  omap (fun ev => match ev with Dispatched q => Some q | Printed _ => None end) out.

(** ** Vocabulary of the properties *)

(** The smaller of two latencies, as the comparisons of the code select it. *)
Definition lat_min (a b : latency) : latency := if lat_ltb a b then a else b.

(** The histogram assignment of [agg_step]: the first result's array is taken
    as it is, later ones are added. *)
Definition merge_hist (o : option (list Z)) (h : list Z) : result (list Z) :=
  match o with
  | None => Ok h
  | Some h0 => np_add h0 h
  end.

(** A loop state read back as a worker result, for merging partial
    aggregates. *)
Definition raw_of_state (s : agg_state) (h : list Z) : raw_result :=
  RawResult (a_nqueries s) h (a_min_latency s) (a_max_latency s).

(** A [Result] read back as a worker result; there is none without a
    histogram. *)
Definition raw_of_result (R : Result) : option raw_result :=
  match latency_stats R with
  | Some h => Some (RawResult (nqueries R) h (min_latency R) (max_latency R))
  | None => None
  end.

(** After the first result the loop state has a histogram and a
    non-negative maximum. *)
Definition merged (st : agg_state) : Prop :=
  is_Some (a_latency_stats st) /\ 0 <= a_max_latency st.

(** Latency of a call in units of 10 microseconds: [elapsed_ns // 10000]. *)
Definition req_time_of (elapsed_ns : Z) : Z := elapsed_ns `div` 10000.

(** The bucket a latency is counted in, for a histogram of [len] buckets. *)
Definition bucket_of (len : Z) (elapsed_ns : Z) : Z :=
  Z.min (req_time_of elapsed_ns) (len - 1).

(** Number of calls counted in bucket [i]. *)
Definition calls_in_bucket (len : Z) (i : nat) (elapsed : list Z) : Z :=
  Z.of_nat (length (filter (fun d => Z.to_nat (bucket_of len d) = i) elapsed)).

(** Two histogram lengths numpy cannot broadcast together. *)
Definition incompatible (n m : nat) : Prop := n <> m /\ n <> 1%nat /\ m <> 1%nat.

(** Some two lengths of the list are incompatible. *)
Definition clash (ls : list nat) : Prop :=
  exists n m, n ∈ ls /\ m ∈ ls /\ incompatible n m.

(** Sum over all buckets of a histogram that may be absent. *)
Definition buckets_total (o : option (list Z)) : Z :=
  match o with
  | Some h => hist_sum h
  | None => 0
  end.

(** Sum of the workers' counts. *)
Definition sum_counts (rs : list raw_result) : Z :=
  foldr Z.add 0 (t_nqueries <$> rs).

(** The run configuration used in the examples: 4 workers, 10 seconds,
    a timeout of one second, one query. *)
Definition ctx_example : Context := MkContext 4 10 1 ["get_user"%string].

(** The count is the sum over all buckets. *)
Definition count_ok (r : raw_result) : Prop :=
  t_nqueries r = hist_sum (t_latency_stats r).

(** The relation between a count and its extrema. *)
Definition minmax_ok (n : Z) (mn : latency) (mx : Z) : Prop :=
  (0 < n -> lat_le mn (Fin mx)) /\ (n = 0 -> mn = Inf /\ mx = 0).

(** What holds of every result a worker returns under [ctx]. *)
Definition worker_ok (ctx : Context) (r : raw_result) : Prop :=
  Z.of_nat (length (t_latency_stats r)) = hist_len ctx
  /\ count_ok r
  /\ 0 <= t_nqueries r
  /\ 0 <= t_max_latency r
  /\ minmax_ok (t_nqueries r) (t_min_latency r) (t_max_latency r).

(** Every measured call of every worker of a query returns, after a
    non-negative time. *)
Definition all_calls_return (ctx : Context) (w : World) (q : string) : Prop :=
  forall i, (i < Z.to_nat (concurrency ctx))%nat ->
    exists elapsed, measured_calls w q i = Returns <$> elapsed
      /\ Forall (fun d => 0 <= d) elapsed.

(** [m] is the largest element of [l]. *)
Definition is_maximum (m : Z) (l : list Z) : Prop :=
  m ∈ l /\ Forall (fun x => x <= m) l.

(** [m] is the smallest element of [l]. *)
Definition is_minimum (m : latency) (l : list latency) : Prop :=
  m ∈ l /\ Forall (lat_le m) l.

(** The workers that recorded at least one call. *)
Definition recorded (rs : list raw_result) : list raw_result :=
  filter (fun r => 0 < t_nqueries r) rs.

(** What the data model says of a worker result, as far as count and extrema
    go: a non-negative count and maximum, and the sentinels when no call was
    recorded. *)
Definition sentinels_ok (r : raw_result) : Prop :=
  0 <= t_nqueries r /\ 0 <= t_max_latency r
  /\ (t_nqueries r = 0 -> t_min_latency r = Inf /\ t_max_latency r = 0).

(** A run of three queries by one worker that measures two calls per query,
    under a timeout of 0 seconds (a histogram of one bucket); standard output
    breaks at the report of the second query. *)
Definition ctx_runner : Context :=
  MkContext 1 10 0 ["get_user"; "get_movie"; "get_person"]%string.

(** Each worker measures calls of 0.05 ms and 0.07 ms; printing the report
    of [get_movie] fails. *)
Definition world_broken_stdout : World :=
  MkWorld (fun _ _ => [Returns 50000; Returns 70000])
    (fun q => bool_decide (q = "get_movie"%string)).

(** ** The rest of the program *)


(** The capabilities other than the query method, in the order they are
    called. *)
Inductive capability : Type :=
  | Cap_init
  | Cap_connect
  | Cap_close.

Global Instance capability_eq_dec : EqDecision capability.
Proof. solve_decision. Defined.


(** [run_benchmark_async]: one task per element of [range(ctx.concurrency)],
    gathered in the order of the tasks, then the aggregation.  When several
    tasks raise, the source surfaces the one that raised first; the model
    takes the one of lowest index. *)
Definition run_benchmark_async (ctx : Context) (w : World)
    (benchname : string) (duration : Z) (queryname : string) : result Result :=
  results <- collect
    ((fun i => run_benchmark_method ctx (measured_calls w queryname i))
       <$> seq 0 (Z.to_nat (concurrency ctx))) ;;
  agg_results results benchname queryname duration.

(** The loop [for queryname in ctx.queries] of [run_async]. *)
Fixpoint run_async_queries (ctx : Context) (w : World) (benchname : string)
    (qs : list string) (results : list Result) (out : list event)
  : list event * result (list Result) :=
  match qs with
  | [] => (out, Ok results)
  | q :: qs' =>
      let out1 := out ++ [Dispatched q] in
      match run_benchmark_async ctx w benchname (ctx_duration ctx) q with
      | Err e => (out1, Err e)
      | Ok res =>
          match print_result ctx w res out1 with
          | (out2, Err e) => (out2, Err e)
          | (out2, Ok _) =>
              run_async_queries ctx w benchname qs' (results ++ [res]) out2
          end
      end
  end.

(** [run_async] after the ids are loaded. *)
Definition run_async (ctx : Context) (w : World) (benchname : string)
  : list event * result (list Result) :=
  run_async_queries ctx w benchname (queries ctx) [] [].

(** An entry of [_shared.BENCHMARKS], as far as this file reads it: the
    language of the benchmark and the [ASYNC] attribute of its module
    ([False] when the module has none). *)
Record bench_desc : Type := MkBenchDesc {
  language : string;
  ASYNC : bool
}.

(** Exceptions of [main] and [run_bench]: those of a run, a benchmark name
    missing from [_shared.BENCHMARKS], and [None.tolist()]. *)
Inductive py_exn : Type :=
  | Exn (e : exn)
  | KeyError (key : string)
  | AttributeError.

Inductive outcome (A : Type) : Type :=
  | Returned (a : A)
  | Raised (e : py_exn).

Arguments Returned {A} a.
Arguments Raised {A} e.

Definition lift_result {A : Type} (m : result A) : outcome A :=
  match m with
  | Ok a => Returned a
  | Err e => Raised (Exn e)
  end.

(** [run_bench]: the asynchronous runner for a module with [ASYNC], the
    synchronous one otherwise. *)
Definition run_bench (BENCHMARKS : gmap string bench_desc) (ctx : Context)
    (w : World) (benchname : string) : list event * outcome (list Result) :=
  match BENCHMARKS !! benchname with
  | None => ([], Raised (KeyError benchname))
  | Some d =>
      let (out, m) :=
        if ASYNC d then run_async ctx w benchname else run_sync ctx w benchname in
      (out, lift_result m)
  end.

(** The loop [for benchmark in ctx.benchmarks] of [main]; [worlds] gives the
    environment of each benchmark. *)
Fixpoint main_benchmarks (BENCHMARKS : gmap string bench_desc) (ctx : Context)
    (worlds : string -> World) (benchmarks : list string)
    (data : list (list Result)) (out : list event)
  : list event * outcome (list (list Result)) :=
  match benchmarks with
  | [] => (out, Returned data)
  | benchmark :: benchmarks' =>
      match BENCHMARKS !! benchmark with
      | None => (out, Raised (KeyError benchmark))
      | Some bench_desc =>
          if bool_decide (language bench_desc <> "python"%string)
          then main_benchmarks BENCHMARKS ctx worlds benchmarks' data out
          else
            match run_bench BENCHMARKS ctx (worlds benchmark) benchmark with
            | (out1, Raised e) => (out ++ out1, Raised e)
            | (out1, Returned res) =>
                main_benchmarks BENCHMARKS ctx worlds benchmarks'
                  (data ++ [res]) (out ++ out1)
            end
      end
  end.

(** The dictionary [main] builds for one query of the JSON report. *)
Record json_query : Type := MkJsonQuery {
  jq_queryname : string;
  jq_nqueries : Z;
  jq_min_latency : latency;
  jq_max_latency : Z;
  jq_latency_stats : list Z
}.

(** The dictionary [main] builds for one benchmark. *)
Record json_benchmark : Type := MkJsonBenchmark {
  jb_benchmark : string;
  jb_duration : Z;
  jb_queries : list json_query
}.

(** The loop [for r in results]: [r.latency_stats.tolist()] raises on
    [None]. *)
Fixpoint json_results (results : list Result) : outcome (list json_query) :=
  match results with
  | [] => Returned []
  | r :: results' =>
      match latency_stats r with
      | None => Raised AttributeError
      | Some h =>
          match json_results results' with
          | Returned js =>
              Returned (MkJsonQuery (queryname r) (nqueries r) (min_latency r)
                          (max_latency r) h :: js)
          | Raised e => Raised e
          end
      end
  end.

(** The loop [for results in data]: the queries first, then
    [results[0]], which raises [IndexError] on an empty list. *)
Fixpoint json_data (data : list (list Result)) : outcome (list json_benchmark) :=
  match data with
  | [] => Returned []
  | results :: data' =>
      match json_results results with
      | Raised e => Raised e
      | Returned js =>
          match results with
          | [] => Raised (Exn IndexError)
          | r0 :: _ =>
              match json_data data' with
              | Returned jd =>
                  Returned (MkJsonBenchmark (benchmark r0) (duration r0) js :: jd)
              | Raised e => Raised e
              end
          end
      end
  end.

(** [main] from the benchmark loop on: the runs, then the JSON data when
    [ctx.json] is set ([None] otherwise).  [benchmarks] is [ctx.benchmarks]
    and [json] tells whether [ctx.json] is set.  The header printed before
    the loop, the serialisation by [json.dumps] and the write of the file are
    left out; the data is kept as the dictionaries the code builds. *)
Definition main (BENCHMARKS : gmap string bench_desc) (ctx : Context)
    (worlds : string -> World) (benchmarks : list string) (json : bool)
  : list event * outcome (option (list json_benchmark)) :=
  match main_benchmarks BENCHMARKS ctx worlds benchmarks [] [] with
  | (out, Raised e) => (out, Raised e)
  | (out, Returned data) =>
      if json then
        match json_data data with
        | Returned jd => (out, Returned (Some jd))
        | Raised e => (out, Raised e)
        end
      else (out, Returned None)
  end.

(** The latencies of a list of calls, in units of 10 microseconds. *)
Definition req_times (elapsed : list Z) : list Z := req_time_of <$> elapsed.

(** Bucket [i] of each worker, summed. *)
Definition bucket_total (i : nat) (rs : list raw_result) : Z :=
  foldr Z.add 0 ((fun r => t_latency_stats r !!! i) <$> rs).

(** A call outcome the clock can produce: a non-negative elapsed time, or an
    exception. *)
Definition call_ok (c : call) : Prop :=
  match c with
  | Returns elapsed_ns => 0 <= elapsed_ns
  | Raises => True
  end.

(** Sum of [f i] over the workers [0 .. n - 1]. *)
Definition sum_over_workers (n : nat) (f : nat -> Z) : Z :=
  foldr Z.add 0 (f <$> seq 0 n).

(** The [Result] of an aggregation without any worker result. *)
Definition empty_Result (benchname queryname : string) (duration : Z) : Result :=
  MkResult benchname queryname 0 duration Inf 0 None.

(** A [Result] and the dictionary exported for it: every field unchanged. *)
Definition query_exported (r : Result) (jq : json_query) : Prop :=
  jq_queryname jq = queryname r
  /\ jq_nqueries jq = nqueries r
  /\ jq_min_latency jq = min_latency r
  /\ jq_max_latency jq = max_latency r
  /\ latency_stats r = Some (jq_latency_stats jq).

(** The results of a benchmark and the dictionary exported for them: name
    and duration of the first result, and the queries in order. *)
Definition benchmark_exported (results : list Result) (jb : json_benchmark)
  : Prop :=
  (exists r0 rest, results = r0 :: rest
     /\ jb_benchmark jb = benchmark r0 /\ jb_duration jb = duration r0)
  /\ Forall2 query_exported results (jb_queries jb).

(** Results that can be exported: at least one, each with a histogram. *)
Definition exportable (results : list Result) : Prop :=
  results <> [] /\ Forall (fun r => is_Some (latency_stats r)) results.

(** A benchmark name that [_shared.BENCHMARKS] knows, of another language
    than Python. *)
Definition other_language (BENCHMARKS : gmap string bench_desc) (b : string)
  : Prop :=
  exists d, BENCHMARKS !! b = Some d /\ language d <> "python"%string.

(** The [Result] of a healthy dispatch of query [q]. *)
Definition healthy_Result (ctx : Context) (b q : string) (R : Result) : Prop :=
  benchmark R = b /\ queryname R = q /\ duration R = ctx_duration ctx
  /\ exists h, latency_stats R = Some h /\ nqueries R = hist_sum h.

(** What a healthy run of one query shows: the dispatch and the six lines
    of its report. *)
Definition report_events (ctx : Context) (res : Result) : list event :=
  [Dispatched (queryname res);
   Printed (L_header (benchmark res) (queryname res));
   Printed (L_queries (nqueries res));
   Printed (L_qps (nqueries res `div` ctx_duration ctx));
   Printed (L_min_latency (min_latency res));
   Printed (L_max_latency (max_latency res));
   Printed L_blank].

(** ** The range in which [float64] counts exactly *)

(** Two histograms whose merge is exact in [float64]: counters that are not
    negative and together do not exceed 2^53, so that no sum of a bucket of
    the one and a bucket of the other is rounded. *)
Definition exact_pair (a b : list Z) : Prop :=
  Forall (fun c => 0 <= c) a /\ Forall (fun c => 0 <= c) b
  /\ hist_sum a + hist_sum b <= 2 ^ 53.

(** Worker results whose aggregation is exact in [float64], in whatever
    order and grouping they are added: counters that are not negative and
    that, over all workers and buckets, do not exceed 2^53.  For the results
    of workers this says that at most 2^53 calls were measured in all. *)
Definition counters_exact (rs : list raw_result) : Prop :=
  Forall (fun r => Forall (fun c => 0 <= c) (t_latency_stats r)) rs
  /\ foldr Z.add 0 (hist_sum ∘ t_latency_stats <$> rs) <= 2 ^ 53.

(** ** Arrays *)

Section arrays.
Implicit Types (a b h : list Z) (i k : nat).

Lemma np_zeros_ok n :
  0 <= n -> np_zeros n = Ok (replicate (Z.to_nat n) 0).
Proof. intros Hn. unfold np_zeros. by rewrite (proj2 (Z.ltb_ge n 0)). Qed.

Lemma hist_sum_cons x h : hist_sum (x :: h) = x + hist_sum h.
Proof. done. Qed.

Lemma hist_sum_replicate k : hist_sum (replicate k 0) = 0.
Proof.
  induction k as [|k IH]; [done|].
  change (replicate (S k) 0) with (0 :: replicate k 0).
  rewrite hist_sum_cons. lia.
Qed.

Lemma hist_sum_alter_succ h i :
  (i < length h)%nat -> hist_sum (alter Z.succ i h) = hist_sum h + 1.
Proof.
  revert i. induction h as [|x h IH]; intros [|i] Hi; simpl in Hi; try lia.
  - change (alter Z.succ 0%nat (x :: h)) with (Z.succ x :: h).
    rewrite !hist_sum_cons. lia.
  - change (alter Z.succ (S i) (x :: h)) with (x :: alter Z.succ i h).
    rewrite !hist_sum_cons, IH by lia. lia.
Qed.

(** In range, [a[i] += 1] adds one to bucket [i] and to no other. *)
Lemma np_incr_in_range a z :
  0 <= z < Z.of_nat (length a) ->
  np_incr a z = Ok (alter Z.succ (Z.to_nat z) a).
Proof.
  intros Hz. unfold np_incr.
  rewrite (proj2 (Z.ltb_ge z (- Z.of_nat (length a)))) by lia.
  rewrite (proj2 (Z.leb_gt (Z.of_nat (length a)) z)) by lia.
  rewrite (proj2 (Z.ltb_ge z 0)) by lia. done.
Qed.

Lemma bshape_same k : bshape k k = Ok k.
Proof. unfold bshape. by rewrite Nat.eqb_refl. Qed.

(** Equal lengths: elementwise sum. *)
Lemma np_add_same_length a b :
  length a = length b ->
  np_add a b = Ok (zip_with Z.add a b).
Proof.
  intros Hl. unfold np_add. rewrite Hl, bshape_same. simpl. f_equal.
  apply list_eq. intros i.
  rewrite list_lookup_fmap, lookup_zip_with.
  destruct (decide (i < length b)%nat) as [Hi|Hi].
  - rewrite lookup_seq_lt by done. simpl.
    destruct (lookup_lt_is_Some_2 a i ltac:(lia)) as [x Hx].
    destruct (lookup_lt_is_Some_2 b i Hi) as [y Hy].
    rewrite Hx, Hy. simpl. f_equal. unfold bget.
    destruct (length a =? 1)%nat eqn:Ea.
    + apply Nat.eqb_eq in Ea.
      assert (i = 0)%nat as -> by lia.
      rewrite <- Hl, Ea. simpl.
      by rewrite (list_lookup_total_correct _ _ _ Hx),
                 (list_lookup_total_correct _ _ _ Hy).
    + rewrite <- Hl, Ea.
      by rewrite (list_lookup_total_correct _ _ _ Hx),
                 (list_lookup_total_correct _ _ _ Hy).
  - rewrite lookup_seq_ge by lia. simpl.
    rewrite (lookup_ge_None_2 a i) by lia. done.
Qed.

Lemma hist_sum_zip_add a b :
  length a = length b ->
  hist_sum (zip_with Z.add a b) = hist_sum a + hist_sum b.
Proof.
  revert b. induction a as [|x a IH]; intros [|y b] Hl; simpl in Hl; try lia.
  - done.
  - change (zip_with Z.add (x :: a) (y :: b)) with (x + y :: zip_with Z.add a b).
    rewrite !hist_sum_cons, IH by lia. lia.
Qed.

End arrays.

(** ** Running extrema *)

Lemma gtb_max a b : (if a >? b then a else b) = Z.max a b.
Proof. rewrite Z.gtb_ltb. destruct (Z.ltb_spec b a); lia. Qed.

Lemma lat_min_Fin x y : lat_min (Fin x) (Fin y) = Fin (Z.min x y).
Proof. unfold lat_min. simpl. destruct (Z.ltb_spec x y); f_equal; lia. Qed.

Lemma lat_min_Inf_r a : lat_min a Inf = a.
Proof. by destruct a. Qed.

Lemma lat_min_Inf_l a : lat_min Inf a = a.
Proof. by destruct a. Qed.

Lemma lat_min_comm a b : lat_min a b = lat_min b a.
Proof.
  destruct a as [x|], b as [y|];
    rewrite ?lat_min_Fin, ?lat_min_Inf_r, ?lat_min_Inf_l; try done.
  f_equal. lia.
Qed.

Lemma lat_min_assoc a b c : lat_min a (lat_min b c) = lat_min (lat_min a b) c.
Proof.
  destruct a as [x|], b as [y|], c as [z|];
    rewrite ?lat_min_Fin, ?lat_min_Inf_r, ?lat_min_Inf_l, ?lat_min_Fin; try done.
  f_equal. lia.
Qed.

Lemma lat_le_refl a : lat_le a a.
Proof. destruct a; simpl; [lia|done]. Qed.

Lemma lat_le_trans a b c : lat_le a b -> lat_le b c -> lat_le a c.
Proof. destruct a, b, c; simpl; try done; lia. Qed.

Lemma lat_min_le_l a b : lat_le (lat_min a b) a.
Proof.
  destruct a as [x|], b as [y|];
    rewrite ?lat_min_Fin, ?lat_min_Inf_r, ?lat_min_Inf_l; simpl; try done; lia.
Qed.

Lemma lat_min_le_r a b : lat_le (lat_min a b) b.
Proof. rewrite lat_min_comm. apply lat_min_le_l. Qed.

Lemma lat_min_cases a b : lat_min a b = a \/ lat_min a b = b.
Proof. unfold lat_min. destruct (lat_ltb a b); auto. Qed.

(** ** Broadcasting addition *)

Section broadcasting.
Implicit Types (a b c h : list Z) (i k n m : nat).

Lemma bind_assoc {A B C} (m : result A) (f : A -> result B) (g : B -> result C) :
  bind (bind m f) g = bind m (fun x => bind (f x) g).
Proof. by destruct m. Qed.

Lemma bind_ret_r {A} (m : result A) : bind m Ok = m.
Proof. by destruct m. Qed.

Lemma tab_ext (f g : nat -> Z) k :
  (forall i, (i < k)%nat -> f i = g i) -> f <$> seq 0 k = g <$> seq 0 k.
Proof.
  intros Hfg. apply list_fmap_ext. intros i x Hx.
  apply lookup_seq in Hx as [-> Hi]. by apply Hfg.
Qed.

Lemma tab_lookup_total (f : nat -> Z) k i :
  (i < k)%nat -> (f <$> seq 0 k) !!! i = f i.
Proof.
  intros Hi. apply list_lookup_total_correct.
  by rewrite list_lookup_fmap, lookup_seq_lt.
Qed.

Lemma tab_length (f : nat -> Z) k : length (f <$> seq 0 k) = k.
Proof. by rewrite length_fmap, length_seq. Qed.

Lemma bshape_comm n m : bshape n m = bshape m n.
Proof.
  unfold bshape.
  destruct (Nat.eqb_spec n m), (Nat.eqb_spec m n),
    (Nat.eqb_spec n 1), (Nat.eqb_spec m 1); try done; f_equal; lia.
Qed.

Lemma bshape_Ok n m k :
  bshape n m = Ok k ->
  (n = k /\ (m = k \/ m = 1%nat)) \/ (n = 1%nat /\ m = k).
Proof.
  unfold bshape.
  destruct (Nat.eqb_spec n m), (Nat.eqb_spec n 1), (Nat.eqb_spec m 1);
    intros [= <-]; lia.
Qed.

Lemma bshape_Err n m e :
  bshape n m = Err e ->
  e = ValueError_broadcast /\ n <> m /\ n <> 1%nat /\ m <> 1%nat.
Proof.
  unfold bshape.
  destruct (Nat.eqb_spec n m), (Nat.eqb_spec n 1), (Nat.eqb_spec m 1);
    intros [= <-]; auto.
Qed.

(** Shapes can be folded in any order. *)
Lemma bshape_right_comm n x y :
  bind (bshape n x) (fun k => bshape k y) = bind (bshape n y) (fun k => bshape k x).
Proof.
  unfold bshape.
  destruct (Nat.eqb_spec n x), (Nat.eqb_spec n 1), (Nat.eqb_spec x 1),
    (Nat.eqb_spec n y), (Nat.eqb_spec y 1); simpl;
    repeat match goal with
           | |- context [Nat.eqb ?p ?q] => destruct (Nat.eqb_spec p q)
           end; simpl; try done; try (f_equal; lia); lia.
Qed.

Lemma bget_stretch a i : length a = 1%nat -> bget a i = bget a 0.
Proof. intros Ha. unfold bget. by rewrite Ha. Qed.

(** Reading the sum of two arrays through broadcasting. *)
Lemma bget_np_add a b c i :
  np_add a b = Ok c ->
  (i < length c)%nat \/ length c = 1%nat ->
  bget c i = bget a i + bget b i.
Proof.
  unfold np_add. destruct (bshape (length a) (length b)) as [k|e] eqn:Hk;
    simpl; [|done].
  intros [= <-]. rewrite tab_length. intros Hi.
  unfold bget at 1. rewrite tab_length.
  destruct (Nat.eqb_spec k 1) as [->|Hk1].
  - rewrite tab_lookup_total by lia.
    apply bshape_Ok in Hk.
    rewrite (bget_stretch a i), (bget_stretch b i) by lia. done.
  - rewrite tab_lookup_total by lia. done.
Qed.

Lemma np_add_length a b c :
  np_add a b = Ok c -> bshape (length a) (length b) = Ok (length c).
Proof.
  unfold np_add. destruct (bshape (length a) (length b)) as [k|e]; simpl; [|done].
  intros [= <-]. by rewrite tab_length.
Qed.

Lemma np_add_comm a b : np_add a b = np_add b a.
Proof.
  unfold np_add. rewrite (bshape_comm (length a)).
  destruct (bshape (length b) (length a)); simpl; [|done].
  f_equal. apply tab_ext. intros; lia.
Qed.

(** Two additions in a row: the broadcast of the three shapes, and the sum
    of the three operands at every index. *)
Lemma np_add_chain h a b :
  bind (np_add h a) (fun c => np_add c b) =
  bind (bind (bshape (length h) (length a)) (fun k => bshape k (length b)))
    (fun k => Ok ((fun i => bget h i + bget a i + bget b i) <$> seq 0 k)).
Proof.
  destruct (np_add h a) as [c|e] eqn:Hc; simpl.
  - rewrite (np_add_length _ _ _ Hc). simpl.
    unfold np_add. destruct (bshape (length c) (length b)) as [k|e] eqn:Hk;
      simpl; [|done].
    f_equal. apply tab_ext. intros i Hi.
    rewrite (bget_np_add _ _ _ _ Hc); [done|].
    apply bshape_Ok in Hk. lia.
  - unfold np_add in Hc.
    destruct (bshape (length h) (length a)); simpl in *; [done|congruence].
Qed.

Lemma np_add_right_comm h a b :
  bind (np_add h a) (fun c => np_add c b) = bind (np_add h b) (fun c => np_add c a).
Proof.
  rewrite !np_add_chain, bshape_right_comm.
  destruct (bind (bshape (length h) (length b)) _); simpl; [|done].
  f_equal. apply tab_ext. intros; lia.
Qed.

Lemma np_add_assoc h a b :
  bind (np_add a b) (fun c => np_add h c) = bind (np_add h a) (fun c => np_add c b).
Proof.
  transitivity (bind (np_add a b) (fun c => np_add c h)).
  { destruct (np_add a b); simpl; [apply np_add_comm|done]. }
  rewrite np_add_right_comm. by rewrite (np_add_comm a h).
Qed.

End broadcasting.

(** ** Algebra of the aggregation loop *)

Section aggregation.
Implicit Types (st s : agg_state) (r x y : raw_result) (rs xs ys : list raw_result).

Lemma agg_step_eq st r :
  agg_step st r =
  bind (merge_hist (a_latency_stats st) (t_latency_stats r))
    (fun h' => Ok (AggState (lat_min (t_min_latency r) (a_min_latency st))
                            (Z.max (t_max_latency r) (a_max_latency st))
                            (a_nqueries st + t_nqueries r) (Some h'))).
Proof. unfold agg_step. by rewrite gtb_max. Qed.

Lemma agg_step_Ok st r s :
  agg_step st r = Ok s ->
  exists h', merge_hist (a_latency_stats st) (t_latency_stats r) = Ok h'
    /\ s = AggState (lat_min (t_min_latency r) (a_min_latency st))
                    (Z.max (t_max_latency r) (a_max_latency st))
                    (a_nqueries st + t_nqueries r) (Some h').
Proof.
  rewrite agg_step_eq.
  destruct (merge_hist _ _) as [h'|e]; simpl; [|done].
  intros [= <-]. eauto.
Qed.

Lemma agg_loop_app st xs ys :
  agg_loop st (xs ++ ys) = bind (agg_loop st xs) (fun s => agg_loop s ys).
Proof.
  revert st. induction xs as [|x xs IH]; intros st; simpl; [done|].
  destruct (agg_step st x); simpl; [apply IH|done].
Qed.

(** Two loop iterations can be exchanged. *)
Lemma agg_step_swap st x y :
  bind (agg_step st x) (fun s => agg_step s y) =
  bind (agg_step st y) (fun s => agg_step s x).
Proof.
  rewrite !agg_step_eq.
  destruct st as [mn mx n [h|]]; simpl.
  - pose proof (np_add_right_comm h (t_latency_stats x) (t_latency_stats y)) as H.
    destruct (np_add h (t_latency_stats x)) as [c1|e1],
             (np_add h (t_latency_stats y)) as [c2|e2];
      simpl in *; rewrite ?agg_step_eq; simpl; rewrite ?H; try done.
    + destruct (np_add c2 (t_latency_stats x)); simpl; [|done].
      f_equal. f_equal; [|lia|lia].
      by rewrite !lat_min_assoc, (lat_min_comm (t_min_latency y)).
    + by rewrite <- H.
    + by injection H as ->.
  - rewrite !agg_step_eq. simpl.
    rewrite (np_add_comm (t_latency_stats x)).
    destruct (np_add _ _); simpl; [|done].
    f_equal. f_equal; [|lia|lia].
    by rewrite !lat_min_assoc, (lat_min_comm (t_min_latency y)).
Qed.

(** The loop does not depend on the order of the results. *)
Lemma agg_loop_perm st rs rs' :
  rs ≡ₚ rs' -> agg_loop st rs = agg_loop st rs'.
Proof.
  intros Hp. revert st.
  induction Hp as [|x l l' _ IH|x y l|l l' l'' _ IH1 _ IH2]; intros st.
  - done.
  - simpl. destruct (agg_step st x); simpl; [apply IH|done].
  - change (agg_loop st (y :: x :: l))
      with (bind (agg_step st y)
              (fun s => bind (agg_step s x) (fun s' => agg_loop s' l))).
    change (agg_loop st (x :: y :: l))
      with (bind (agg_step st x)
              (fun s => bind (agg_step s y) (fun s' => agg_loop s' l))).
    rewrite <- !bind_assoc. by rewrite agg_step_swap.
  - by rewrite IH1.
Qed.

Lemma agg_step_merged st r s :
  0 <= a_max_latency st -> agg_step st r = Ok s -> merged s.
Proof.
  intros Hmx (h' & _ & ->)%agg_step_Ok. split; simpl; [eauto|lia].
Qed.

Lemma agg_loop_merged st rs s :
  merged st -> agg_loop st rs = Ok s -> merged s.
Proof.
  revert st. induction rs as [|r rs IH]; intros st Hst; simpl.
  - by intros [= <-].
  - destruct (agg_step st r) as [s1|e] eqn:Hs1; simpl; [|done].
    apply IH. apply (agg_step_merged _ _ _ (proj2 Hst) Hs1).
Qed.

Lemma agg_loop_init_merged r rs s :
  agg_loop agg_init (r :: rs) = Ok s -> merged s.
Proof.
  simpl. destruct (agg_step agg_init r) as [s1|e] eqn:Hs1; simpl; [|done].
  apply agg_loop_merged. by apply (agg_step_merged agg_init r).
Qed.

(** Absorbing a merged state is the same as absorbing what it absorbed. *)
Lemma agg_step_assoc sx t ht r t1 h1 :
  is_Some (a_latency_stats sx) ->
  a_latency_stats t = Some ht ->
  agg_step t r = Ok t1 ->
  a_latency_stats t1 = Some h1 ->
  bind (agg_step sx (raw_of_state t ht)) (fun s => agg_step s r) =
  agg_step sx (raw_of_state t1 h1).
Proof.
  intros [hx Hhx] Hht (h' & Hh' & ->)%agg_step_Ok [= <-].
  rewrite !agg_step_eq. rewrite Hht in Hh'. rewrite Hhx. simpl in *.
  pose proof (np_add_assoc hx ht (t_latency_stats r)) as H.
  rewrite Hh' in H. simpl in H. rewrite H.
  destruct (np_add hx ht) as [c|e]; simpl; [|done].
  rewrite agg_step_eq. simpl.
  destruct (np_add c (t_latency_stats r)); simpl; [|done].
  f_equal. f_equal; [|lia|lia].
  by rewrite !lat_min_assoc, (lat_min_comm (t_min_latency r)).
Qed.

Lemma agg_loop_absorb rs : forall t ht st sx ht',
  is_Some (a_latency_stats sx) ->
  a_latency_stats t = Some ht ->
  agg_loop t rs = Ok st ->
  a_latency_stats st = Some ht' ->
  bind (agg_step sx (raw_of_state t ht)) (fun s => agg_loop s rs) =
  agg_step sx (raw_of_state st ht').
Proof.
  induction rs as [|r rs IH]; intros t ht st sx ht' Hsx Ht; simpl.
  - intros [= <-] Hst. rewrite Ht in Hst. injection Hst as <-.
    apply bind_ret_r.
  - destruct (agg_step t r) as [t1|e] eqn:Ht1; simpl; [|done].
    intros Hloop Hst.
    destruct (agg_step_Ok _ _ _ Ht1) as (h1 & _ & Heq).
    assert (a_latency_stats t1 = Some h1) as Hh1 by (by rewrite Heq).
    rewrite <- (IH t1 h1 st sx ht' Hsx Hh1 Hloop Hst).
    rewrite <- (agg_step_assoc sx t ht r t1 h1 Hsx Ht Ht1 Hh1).
    by rewrite bind_assoc.
Qed.

End aggregation.

(** ** The measured loop *)

Section worker.
Implicit Types (st : raw_result) (t d : Z) (elapsed : list Z).

Lemma gtb_min a b : (if a >? b then b else a) = Z.min a b.
Proof. rewrite Z.gtb_ltb. destruct (Z.ltb_spec b a); lia. Qed.

Lemma req_time_nonneg t : 0 <= t -> 0 <= req_time_of t.
Proof. intros Ht. apply Z.div_pos; lia. Qed.

Lemma bucket_of_range len t :
  0 < len -> 0 <= t -> 0 <= bucket_of len t < len.
Proof. intros Hl Ht. pose proof (req_time_nonneg t Ht). unfold bucket_of. lia. Qed.

Lemma hist_len_eq ctx : hist_len ctx = timeout_ceil ctx * 100000 + 1.
Proof. unfold hist_len. lia. Qed.

(** One measured call: the counter, one bucket, and the running extrema. *)
Lemma measure_spec st t :
  let len := Z.of_nat (length (t_latency_stats st)) in
  0 < len -> 0 <= t ->
  measure (len - 1) st t =
  Ok (RawResult (t_nqueries st + 1)
        (alter Z.succ (Z.to_nat (bucket_of len t)) (t_latency_stats st))
        (lat_min (Fin (req_time_of t)) (t_min_latency st))
        (Z.max (req_time_of t) (t_max_latency st))).
Proof.
  intros len Hl Ht. unfold measure.
  fold (req_time_of t). rewrite gtb_max, gtb_min.
  fold (bucket_of len t).
  rewrite np_incr_in_range by (by apply bucket_of_range). done.
Qed.

Lemma lookup_total_alter_succ (h : list Z) (j i : nat) :
  (j < length h)%nat ->
  alter Z.succ j h !!! i = h !!! i + (if decide (j = i) then 1 else 0).
Proof.
  intros Hj. destruct (decide (j = i)) as [->|Hne].
  - destruct (lookup_lt_is_Some_2 h i Hj) as [x Hx].
    rewrite (list_lookup_total_correct _ _ _ Hx).
    erewrite list_lookup_total_correct; [|by rewrite list_lookup_alter_eq, Hx].
    simpl. lia.
  - rewrite !list_lookup_total_alt, list_lookup_alter_ne by done. lia.
Qed.

Lemma calls_in_bucket_cons len i d elapsed :
  calls_in_bucket len i (d :: elapsed) =
  (if decide (Z.to_nat (bucket_of len d) = i) then 1 else 0)
  + calls_in_bucket len i elapsed.
Proof.
  unfold calls_in_bucket. rewrite filter_cons.
  destruct (decide (Z.to_nat (bucket_of len d) = i)); simpl; lia.
Qed.

Lemma foldr_max_shift a b (l : list Z) :
  foldr Z.max (Z.max a b) l = Z.max a (foldr Z.max b l).
Proof. induction l as [|x l IH]; simpl; [done|]. rewrite IH. lia. Qed.

Lemma foldr_lat_min_shift a b (l : list latency) :
  foldr lat_min (lat_min a b) l = lat_min a (foldr lat_min b l).
Proof.
  induction l as [|x l IH]; simpl; [done|]. rewrite IH.
  by rewrite !lat_min_assoc, (lat_min_comm x a).
Qed.

(** The whole measured phase when every call returns: closed forms of the
    four loop variables. *)
Lemma measured_phase_spec elapsed : forall st,
  let len := Z.of_nat (length (t_latency_stats st)) in
  0 < len -> Forall (fun d => 0 <= d) elapsed ->
  exists h',
    measured_phase (len - 1) st (Returns <$> elapsed) =
      Ok (RawResult (t_nqueries st + Z.of_nat (length elapsed)) h'
            (foldr lat_min (t_min_latency st) (Fin <$> (req_time_of <$> elapsed)))
            (foldr Z.max (t_max_latency st) (req_time_of <$> elapsed)))
    /\ length h' = length (t_latency_stats st)
    /\ hist_sum h' = hist_sum (t_latency_stats st) + Z.of_nat (length elapsed)
    /\ forall i, h' !!! i = t_latency_stats st !!! i + calls_in_bucket len i elapsed.
Proof.
  induction elapsed as [|d elapsed IH]; intros st len Hl Hpos.
  - exists (t_latency_stats st). simpl. destruct st; simpl.
    split; [f_equal; f_equal; lia|]. split; [done|]. split; [lia|].
    intros i. unfold calls_in_bucket. simpl. lia.
  - apply Forall_cons in Hpos as [Hd Hpos].
    pose proof (bucket_of_range len d Hl Hd) as Hb.
    rewrite !fmap_cons. cbn [measured_phase length foldr].
    pose proof (measure_spec st d Hl Hd) as Hm. cbv zeta in Hm. fold len in Hm.
    rewrite Hm. cbn [bind]. clear Hm.
    set (st1 := RawResult _ _ _ _).
    assert (Z.of_nat (length (t_latency_stats st1)) = len) as Hlen1.
    { unfold st1. simpl. by rewrite length_alter. }
    destruct (IH st1) as (h' & Hrun & Hlen & Hsum & Hbk); [lia|done|].
    rewrite Hlen1 in Hrun, Hbk. exists h'. rewrite Hrun.
    unfold st1 in *. simpl in *. clear st1.
    rewrite length_alter in Hlen.
    rewrite hist_sum_alter_succ in Hsum by lia.
    split; [|split; [|split]].
    + f_equal. f_equal; [lia| |].
      * by rewrite foldr_lat_min_shift.
      * by rewrite foldr_max_shift.
    + done.
    + lia.
    + intros i. rewrite Hbk, lookup_total_alter_succ by lia.
      rewrite calls_in_bucket_cons. lia.
Qed.

Lemma lookup_total_replicate_0 (n i : nat) :
  (i < n)%nat -> replicate n 0 !!! i = 0.
Proof. intros Hi. by rewrite list_lookup_total_alt, lookup_replicate_2. Qed.

(** A worker whose calls all return: what it returns. *)
Lemma run_benchmark_method_spec ctx elapsed :
  0 <= timeout_ceil ctx -> Forall (fun d => 0 <= d) elapsed ->
  exists h,
    run_benchmark_method ctx (Returns <$> elapsed) =
      Ok (RawResult (Z.of_nat (length elapsed)) h
            (foldr lat_min Inf (Fin <$> (req_time_of <$> elapsed)))
            (foldr Z.max 0 (req_time_of <$> elapsed)))
    /\ Z.of_nat (length h) = hist_len ctx
    /\ hist_sum h = Z.of_nat (length elapsed)
    /\ forall i, (i < length h)%nat ->
         h !!! i = calls_in_bucket (hist_len ctx) i elapsed.
Proof.
  intros Hc Hpos. unfold run_benchmark_method.
  assert (0 < hist_len ctx) as Hl by (rewrite hist_len_eq; lia).
  rewrite np_zeros_ok by lia. simpl.
  set (st0 := RawResult 0 _ Inf 0).
  assert (Z.of_nat (length (t_latency_stats st0)) = hist_len ctx) as Hlen0.
  { unfold st0. simpl. rewrite length_replicate. lia. }
  destruct (measured_phase_spec elapsed st0) as (h & Hrun & Hlen & Hsum & Hbk);
    [lia|done|].
  rewrite Hlen0 in Hrun, Hbk.
  unfold st0 in *. simpl in *. rewrite length_replicate in *.
  exists h. replace (Z.of_nat (Z.to_nat (hist_len ctx))) with (hist_len ctx) by lia.
  rewrite Hrun. rewrite hist_sum_replicate in Hsum.
  split; [done|]. split; [lia|]. split; [lia|].
  intros i Hi. rewrite Hbk, lookup_total_replicate_0 by lia. lia.
Qed.

End worker.

(** ** When the aggregation raises *)

Section failure.
Implicit Types (st s : agg_state) (r : raw_result) (rs : list raw_result)
  (ls : list nat).

Lemma bshape_Err_iff n m e :
  bshape n m = Err e <-> e = ValueError_broadcast /\ incompatible n m.
Proof.
  split; [apply bshape_Err|].
  intros [-> (Hnm & Hn & Hm)]. unfold bshape.
  destruct (Nat.eqb_spec n m), (Nat.eqb_spec n 1), (Nat.eqb_spec m 1); done.
Qed.

Lemma np_add_Err_iff (a b : list Z) e :
  np_add a b = Err e <->
  e = ValueError_broadcast /\ incompatible (length a) (length b).
Proof.
  rewrite <- bshape_Err_iff. unfold np_add.
  destruct (bshape (length a) (length b)); simpl; split; congruence.
Qed.

Lemma clash_equiv ls ls' :
  (forall n, n ∈ ls <-> n ∈ ls') -> clash ls <-> clash ls'.
Proof.
  intros H. unfold clash. split; intros (n & m & Hn & Hm & Hi);
    exists n, m; (split; [|split]); try done; by apply H.
Qed.

Lemma clash_one ls : clash (1%nat :: ls) <-> clash ls.
Proof.
  unfold clash, incompatible. split.
  - intros (n & m & Hn & Hm & Hnm & Hn1 & Hm1).
    apply elem_of_cons in Hn as [->|Hn]; [done|].
    apply elem_of_cons in Hm as [->|Hm]; [done|].
    by exists n, m.
  - intros (n & m & Hn & Hm & Hi). exists n, m.
    split; [by right|]. split; [by right|done].
Qed.

Lemma clash_head n m ls : incompatible n m -> clash (n :: m :: ls).
Proof.
  intros Hi. exists n, m. split; [by left|]. split; [right; by left|done].
Qed.

(** From a state that holds a histogram of length [k], the loop raises
    exactly when [k] and the lengths still to come clash. *)
Lemma agg_loop_Err_Some rs : forall st h e,
  a_latency_stats st = Some h ->
  agg_loop st rs = Err e <->
  e = ValueError_broadcast
  /\ clash (length h :: (length ∘ t_latency_stats <$> rs)).
Proof.
  induction rs as [|r rs IH]; intros st h e Hh.
  - simpl. split; [done|].
    intros [_ (n & m & Hn & Hm & Hnm & _)].
    apply list_elem_of_singleton in Hn, Hm. congruence.
  - rewrite fmap_cons. cbn [agg_loop compose]. rewrite agg_step_eq, Hh. cbn [merge_hist].
    destruct (np_add h (t_latency_stats r)) as [c|e'] eqn:Hc; cbn [bind].
    + rewrite (IH (AggState _ _ _ (Some c)) c e eq_refl).
      apply np_add_length in Hc.
      assert (~ incompatible (length h) (length (t_latency_stats r))) as Hcompat.
      { intros Hi. assert (bshape (length h) (length (t_latency_stats r))
          = Err ValueError_broadcast) as He by (by apply bshape_Err_iff).
        congruence. }
      apply bshape_Ok in Hc.
      assert (clash (length c :: (length ∘ t_latency_stats <$> rs)) <->
              clash (length h :: length (t_latency_stats r)
                       :: (length ∘ t_latency_stats <$> rs))) as ->; [|done].
      destruct Hc as [[Hhc [Hrc|Hr1]]|[Hh1 Hrc]].
      * apply clash_equiv. intros n. rewrite Hhc, Hrc, !elem_of_cons. tauto.
      * rewrite Hr1, Hhc.
        transitivity (clash (1%nat :: length c :: (length ∘ t_latency_stats <$> rs))).
        { symmetry. apply clash_one. }
        apply clash_equiv. intros n. rewrite !elem_of_cons. tauto.
      * rewrite Hh1, Hrc. symmetry. apply clash_one.
    + apply np_add_Err_iff in Hc as [-> Hi]. split.
      * intros [= <-]. split; [done|]. by apply clash_head.
      * by intros [-> _].
Qed.

Lemma agg_loop_Err_init rs e :
  agg_loop agg_init rs = Err e <->
  e = ValueError_broadcast /\ clash (length ∘ t_latency_stats <$> rs).
Proof.
  destruct rs as [|r rs].
  - simpl. split; [done|]. intros [_ (n & _ & Hn & _)]. by apply elem_of_nil in Hn.
  - rewrite fmap_cons. cbn [agg_loop]. rewrite agg_step_eq. cbn [bind merge_hist agg_init a_latency_stats].
    by apply agg_loop_Err_Some.
Qed.

Lemma agg_results_Err rs b q d e :
  agg_results rs b q d = Err e <-> agg_loop agg_init rs = Err e.
Proof.
  unfold agg_results. destruct (agg_loop agg_init rs); simpl; split; congruence.
Qed.

Lemma agg_results_Ok rs b q d R :
  agg_results rs b q d = Ok R <->
  exists s, agg_loop agg_init rs = Ok s
    /\ R = MkResult b q (a_nqueries s) d (a_min_latency s) (a_max_latency s)
             (a_latency_stats s).
Proof.
  unfold agg_results. destruct (agg_loop agg_init rs) as [s|e]; simpl; split.
  - intros [= <-]. eauto.
  - by intros (s' & [= <-] & ->).
  - done.
  - by intros (s' & ? & _).
Qed.

End failure.

(** ** What the aggregation returns *)

Section agg_fields.
Implicit Types (st s : agg_state) (r : raw_result) (rs : list raw_result).

(** Count and extrema do not depend on the histograms. *)
Lemma agg_loop_fields rs : forall st s,
  agg_loop st rs = Ok s ->
  a_nqueries s = a_nqueries st + sum_counts rs
  /\ a_max_latency s = foldr Z.max (a_max_latency st) (t_max_latency <$> rs)
  /\ a_min_latency s = foldr lat_min (a_min_latency st) (t_min_latency <$> rs).
Proof.
  induction rs as [|r rs IH]; intros st s; cbn [agg_loop].
  - intros [= <-]. unfold sum_counts. simpl. split; [lia|done].
  - destruct (agg_step st r) as [s1|e] eqn:Hs1; cbn [bind]; [|done].
    intros Hs. destruct (IH _ _ Hs) as (Hn & Hmx & Hmn).
    apply agg_step_Ok in Hs1 as (h' & _ & ->). simpl in *.
    rewrite Hn, Hmx, Hmn. unfold sum_counts. rewrite !fmap_cons. cbn [foldr].
    split; [lia|]. split.
    + by rewrite foldr_max_shift.
    + by rewrite foldr_lat_min_shift.
Qed.

(** Histograms of one length are always merged, bucket by bucket. *)
Lemma agg_loop_same_length (L : nat) rs : forall st,
  (forall h, a_latency_stats st = Some h -> length h = L) ->
  Forall (fun r => length (t_latency_stats r) = L) rs ->
  exists s, agg_loop st rs = Ok s
    /\ (forall h, a_latency_stats s = Some h -> length h = L)
    /\ buckets_total (a_latency_stats s) =
       buckets_total (a_latency_stats st)
       + foldr Z.add 0 (hist_sum ∘ t_latency_stats <$> rs)
    /\ (a_latency_stats s = None <-> a_latency_stats st = None /\ rs = []).
Proof.
  induction rs as [|r rs IH]; intros st Hst Hrs; cbn [agg_loop].
  - exists st. simpl. split; [done|]. split; [done|]. split; [lia|]. tauto.
  - apply Forall_cons in Hrs as [Hr Hrs].
    rewrite agg_step_eq.
    assert (exists h', merge_hist (a_latency_stats st) (t_latency_stats r) = Ok h'
              /\ length h' = L
              /\ hist_sum h' = buckets_total (a_latency_stats st)
                               + hist_sum (t_latency_stats r))
      as (h' & -> & Hl' & Hsum').
    { destruct (a_latency_stats st) as [h|] eqn:Hh; simpl.
      - specialize (Hst h eq_refl).
        rewrite np_add_same_length by lia. eexists. split; [done|].
        rewrite length_zip_with, hist_sum_zip_add by lia. lia.
      - eexists. split; [done|]. lia. }
    cbn [bind].
    destruct (IH (AggState (lat_min (t_min_latency r) (a_min_latency st))
                    (Z.max (t_max_latency r) (a_max_latency st))
                    (a_nqueries st + t_nqueries r) (Some h')))
      as (s & Hs & HsL & Hsum & Hnone); [|done|].
    { simpl. by intros h [= <-]. }
    exists s. cbn [a_latency_stats buckets_total] in *.
    split; [done|]. split; [done|]. split.
    + rewrite Hsum, Hsum', fmap_cons. cbn [foldr compose]. lia.
    + split; [|by intros [_ ?]]. intros Hn. apply Hnone in Hn as [? _]. done.
Qed.

Lemma sum_counts_hist_sum rs :
  Forall (fun r => t_nqueries r = hist_sum (t_latency_stats r)) rs ->
  sum_counts rs = foldr Z.add 0 (hist_sum ∘ t_latency_stats <$> rs).
Proof.
  unfold sum_counts.
  induction 1 as [|r rs Hr _ IH]; [done|].
  rewrite !fmap_cons. cbn [foldr compose]. lia.
Qed.

End agg_fields.

(** ** Extrema of lists *)

Section extrema_lists.

Lemma foldr_max_init a (l : list Z) : a <= foldr Z.max a l.
Proof. induction l as [|x l IH]; simpl; lia. Qed.

Lemma foldr_max_ge a (l : list Z) x : x ∈ l -> x <= foldr Z.max a l.
Proof.
  induction l as [|y l IH]; [by intros ?%elem_of_nil|].
  intros [->|Hx]%elem_of_cons; simpl; [lia|]. specialize (IH Hx). lia.
Qed.

Lemma foldr_max_attained a (l : list Z) :
  foldr Z.max a l = a \/ foldr Z.max a l ∈ l.
Proof.
  induction l as [|y l IH]; simpl; [by left|].
  destruct (Z.max_spec y (foldr Z.max a l)) as [[_ ->]|[_ ->]].
  - destruct IH as [IH|IH]; [by left|right; by right].
  - right; by left.
Qed.

Lemma foldr_lat_min_le a (l : list latency) x :
  x ∈ l -> lat_le (foldr lat_min a l) x.
Proof.
  induction l as [|y l IH]; [by intros ?%elem_of_nil|].
  intros [->|Hx]%elem_of_cons; simpl; [apply lat_min_le_l|].
  eapply lat_le_trans; [apply lat_min_le_r|by apply IH].
Qed.

Lemma foldr_lat_min_attained a (l : list latency) :
  foldr lat_min a l = a \/ foldr lat_min a l ∈ l.
Proof.
  induction l as [|y l IH]; simpl; [by left|].
  destruct (lat_min_cases y (foldr lat_min a l)) as [->| ->].
  - right; by left.
  - destruct IH as [IH|IH]; [by left|right; by right].
Qed.

End extrema_lists.

(** ** Invariants of worker results and of aggregated results *)

Section invariants.
Implicit Types (r : raw_result) (rs : list raw_result).

Lemma run_benchmark_method_ok ctx elapsed :
  0 <= timeout_ceil ctx -> Forall (fun d => 0 <= d) elapsed ->
  exists r, run_benchmark_method ctx (Returns <$> elapsed) = Ok r
    /\ worker_ok ctx r.
Proof.
  intros Hc Hpos.
  destruct (run_benchmark_method_spec ctx elapsed Hc Hpos)
    as (h & Hrun & Hlen & Hsum & _).
  eexists. split; [exact Hrun|]. unfold worker_ok, count_ok, minmax_ok. simpl.
  split; [done|]. split; [done|]. split; [lia|].
  split; [apply foldr_max_init|]. split.
  - intros Hn. destruct elapsed as [|d l]; [simpl in Hn; lia|].
    rewrite !fmap_cons. cbn [foldr].
    eapply lat_le_trans; [apply lat_min_le_l|]. simpl. lia.
  - intros Hn. destruct elapsed as [|d l]; [done|]. simpl in Hn. lia.
Qed.

(** Worker results carry the sentinels the aggregation relies on. *)
Lemma worker_ok_sentinels_ok ctx r : worker_ok ctx r -> sentinels_ok r.
Proof.
  intros (_ & _ & Hn & Hmx & _ & Hzero). unfold sentinels_ok. auto.
Qed.

Lemma collect_Forall {A} (P : A -> Prop) (ms : list (result A)) :
  Forall (fun m => exists a, m = Ok a /\ P a) ms ->
  exists l, collect ms = Ok l /\ Forall P l /\ length l = length ms.
Proof.
  induction 1 as [|m ms (a & -> & Ha) _ (l & Hl & HP & Hlen)].
  - by exists [].
  - exists (a :: l). simpl. rewrite Hl. simpl.
    split; [done|]. split; [by constructor|]. by rewrite Hlen.
Qed.

(** With every call returning, the dispatcher aggregates one well-formed
    result per worker. *)
Lemma run_benchmark_sync_workers ctx w b d q :
  0 <= timeout_ceil ctx -> 0 < concurrency ctx -> all_calls_return ctx w q ->
  exists rs, run_benchmark_sync ctx w b d q = agg_results rs b q d
    /\ Forall (worker_ok ctx) rs
    /\ Z.of_nat (length rs) = concurrency ctx.
Proof.
  intros Hc Hn Hw. unfold run_benchmark_sync.
  rewrite (proj2 (Z.leb_gt (concurrency ctx) 0)) by lia.
  destruct (collect_Forall (worker_ok ctx)
    ((fun i => run_benchmark_method ctx (measured_calls w q i))
       <$> seq 0 (Z.to_nat (concurrency ctx)))) as (rs & -> & Hrs & Hlen).
  { apply Forall_fmap, Forall_forall. intros i Hi.
    apply elem_of_seq in Hi. destruct (Hw i) as (elapsed & Heq & Hpos); [lia|].
    cbn [compose]. rewrite Heq. by apply run_benchmark_method_ok. }
  exists rs. split; [done|]. split; [done|].
  rewrite Hlen, length_fmap, length_seq. lia.
Qed.

Lemma worker_ok_same_length ctx rs :
  Forall (worker_ok ctx) rs ->
  Forall (fun r => length (t_latency_stats r) = Z.to_nat (hist_len ctx)) rs.
Proof. intros H. eapply Forall_impl; [exact H|]. intros r (Hl & _). lia. Qed.

(** Aggregation of histograms of one length keeps the count equal to the
    sum over all buckets. *)
Lemma agg_results_count_ok (L : nat) rs b q d :
  Forall (fun r => length (t_latency_stats r) = L) rs ->
  Forall count_ok rs ->
  exists R, agg_results rs b q d = Ok R
    /\ nqueries R = buckets_total (latency_stats R)
    /\ nqueries R = sum_counts rs
    /\ (latency_stats R = None <-> rs = []).
Proof.
  intros Hlen Hcount.
  destruct (agg_loop_same_length L rs agg_init) as (s & Hs & _ & Hsum & Hnone);
    [done|done|].
  destruct (agg_loop_fields _ _ _ Hs) as (Hn & _).
  eexists. split; [apply agg_results_Ok; eauto|]. simpl in *.
  rewrite Hsum, Hn, sum_counts_hist_sum by done.
  split; [lia|]. split; [lia|]. rewrite Hnone. tauto.
Qed.

(** Extrema of well-formed results, folded as the aggregation folds them. *)
Lemma minmax_ok_fold rs :
  Forall (fun r => 0 <= t_nqueries r
            /\ minmax_ok (t_nqueries r) (t_min_latency r) (t_max_latency r)) rs ->
  0 <= sum_counts rs
  /\ minmax_ok (sum_counts rs)
       (foldr lat_min Inf (t_min_latency <$> rs))
       (foldr Z.max 0 (t_max_latency <$> rs)).
Proof.
  unfold sum_counts.
  induction 1 as [|r rs (Hn & Hpos & Hzero) _ (IHn & IHpos & IHzero)].
  - simpl. split; [lia|]. split; [lia|done].
  - rewrite !fmap_cons. cbn [foldr]. split; [lia|]. split.
    + intros Hsum. destruct (decide (t_nqueries r = 0)) as [Hr0|Hr0].
      * destruct (Hzero Hr0) as [-> ->]. rewrite lat_min_Inf_l.
        eapply lat_le_trans; [apply IHpos; lia|]. simpl. lia.
      * eapply lat_le_trans; [apply lat_min_le_l|].
        eapply lat_le_trans; [apply Hpos; lia|]. simpl. lia.
    + intros Hsum.
      destruct (Hzero ltac:(lia)) as [-> ->].
      destruct (IHzero ltac:(lia)) as [-> ->]. done.
Qed.

Lemma agg_results_minmax_ok (L : nat) rs b q d :
  Forall (fun r => length (t_latency_stats r) = L) rs ->
  Forall (fun r => 0 <= t_nqueries r
            /\ minmax_ok (t_nqueries r) (t_min_latency r) (t_max_latency r)) rs ->
  exists R, agg_results rs b q d = Ok R
    /\ minmax_ok (nqueries R) (min_latency R) (max_latency R).
Proof.
  intros Hlen Hok.
  destruct (agg_loop_same_length L rs agg_init) as (s & Hs & _); [done|done|].
  destruct (agg_loop_fields _ _ _ Hs) as (Hn & Hmx & Hmn).
  eexists. split; [apply agg_results_Ok; eauto|]. simpl in *.
  rewrite Hn, Hmx, Hmn, Z.add_0_l. by apply minmax_ok_fold.
Qed.

End invariants.

(** ** Count and extrema of an aggregation *)

Section agg_extrema.
Implicit Types (r : raw_result) (rs : list raw_result).

Lemma lat_le_Inf_l a : lat_le Inf a -> a = Inf.
Proof. by destruct a. Qed.

(** Workers without a call change neither count nor extrema. *)
Lemma recorded_same_fold rs :
  Forall sentinels_ok rs ->
  sum_counts (recorded rs) = sum_counts rs
  /\ foldr Z.max 0 (t_max_latency <$> recorded rs)
     = foldr Z.max 0 (t_max_latency <$> rs)
  /\ foldr lat_min Inf (t_min_latency <$> recorded rs)
     = foldr lat_min Inf (t_min_latency <$> rs).
Proof.
  unfold recorded, sum_counts.
  induction 1 as [|r rs (Hn & Hmx & Hzero) _ (IHn & IHmx & IHmn)]; [done|].
  rewrite filter_cons. destruct (decide (0 < t_nqueries r)) as [Hr|Hr].
  - rewrite !fmap_cons. cbn [foldr]. by rewrite IHn, IHmx, IHmn.
  - destruct (Hzero ltac:(lia)) as [Hmin Hmax].
    rewrite !fmap_cons. cbn [foldr].
    rewrite IHn, IHmx, IHmn, Hmin, Hmax, lat_min_Inf_l.
    pose proof (foldr_max_init 0 (t_max_latency <$> rs)).
    split; [lia|]. split; [lia|done].
Qed.

Lemma fold_is_maximum rs :
  rs <> [] -> Forall (fun r => 0 <= t_max_latency r) rs ->
  is_maximum (foldr Z.max 0 (t_max_latency <$> rs)) (t_max_latency <$> rs).
Proof.
  intros Hne Hpos.
  assert (Forall (fun x => x <= foldr Z.max 0 (t_max_latency <$> rs))
            (t_max_latency <$> rs)) as Hub.
  { apply Forall_forall. intros x Hx. by apply foldr_max_ge. }
  split; [|done].
  destruct (foldr_max_attained 0 (t_max_latency <$> rs)) as [H0|Hin]; [|done].
  destruct rs as [|r rs]; [done|].
  rewrite H0 in Hub. rewrite fmap_cons in *.
  apply Forall_cons in Hub as [Hr _]. apply Forall_cons in Hpos as [Hr' _].
  rewrite H0. assert (t_max_latency r = 0) as -> by lia. by left.
Qed.

Lemma fold_is_minimum rs :
  rs <> [] ->
  is_minimum (foldr lat_min Inf (t_min_latency <$> rs)) (t_min_latency <$> rs).
Proof.
  intros Hne.
  assert (Forall (lat_le (foldr lat_min Inf (t_min_latency <$> rs)))
            (t_min_latency <$> rs)) as Hlb.
  { apply Forall_forall. intros x Hx. by apply foldr_lat_min_le. }
  split; [|done].
  destruct (foldr_lat_min_attained Inf (t_min_latency <$> rs)) as [H0|Hin]; [|done].
  destruct rs as [|r rs]; [done|].
  rewrite H0 in Hlb. rewrite fmap_cons in *.
  apply Forall_cons in Hlb as [Hr _]. apply lat_le_Inf_l in Hr.
  rewrite H0, Hr. by left.
Qed.

Lemma Forall_recorded (P : raw_result -> Prop) rs :
  Forall P rs -> Forall P (recorded rs).
Proof.
  intros H. apply Forall_forall. intros r Hr.
  apply list_elem_of_filter in Hr as [_ Hr].
  by apply (proj1 (Forall_forall P rs) H).
Qed.

End agg_extrema.

(** ** The benchmark runner *)

Section runner.
Implicit Types (ctx : Context) (w : World) (qs pre post : list string)
  (out : list event) (results : list Result).

Lemma dispatched_app out1 out2 :
  dispatched (out1 ++ out2) = dispatched out1 ++ dispatched out2.
Proof. unfold dispatched. apply omap_app. Qed.

(** Printing dispatches nothing. *)
Lemma print_result_dispatched ctx w res out out' m :
  print_result ctx w res out = (out', m) -> dispatched out' = dispatched out.
Proof.
  unfold print_result.
  destruct (stdout_broken w (queryname res)); [by intros [= <- _]|].
  destruct (ctx_duration ctx =? 0); intros [= <- _];
    rewrite ?dispatched_app; simpl; by rewrite ?app_nil_r.
Qed.

Lemma run_queries_app ctx w b pre post results out :
  run_queries ctx w b (pre ++ post) results out =
  match run_queries ctx w b pre results out with
  | (out1, Ok results1) => run_queries ctx w b post results1 out1
  | (out1, Err e) => (out1, Err e)
  end.
Proof.
  revert results out. induction pre as [|q pre IH]; intros results out; [done|].
  cbn [app run_queries].
  destruct (run_benchmark_sync ctx w b (ctx_duration ctx) q) as [res|e]; [|done].
  destruct (print_result ctx w res (out ++ [Dispatched q])) as [out2 [[]|e]];
    [apply IH|done].
Qed.

(** A loop that completes has dispatched every query name, in order. *)
Lemma run_queries_Ok_dispatched ctx w b qs : forall results out out' results',
  run_queries ctx w b qs results out = (out', Ok results') ->
  dispatched out' = dispatched out ++ qs.
Proof.
  induction qs as [|q qs IH]; intros results out out' results'; cbn [run_queries].
  - intros [= <- _]. by rewrite app_nil_r.
  - destruct (run_benchmark_sync ctx w b (ctx_duration ctx) q) as [res|e]; [|done].
    destruct (print_result ctx w res (out ++ [Dispatched q]))
      as [out2 [[]|e]] eqn:Hp; [|done].
    intros Hrun. rewrite (IH _ _ _ _ Hrun).
    rewrite (print_result_dispatched _ _ _ _ _ _ Hp), dispatched_app.
    simpl. by rewrite <- app_assoc.
Qed.

End runner.

(** ** Sums that stay exact *)

Section exact_range.
Implicit Types (a b c h : list Z) (r : raw_result) (rs : list raw_result).

Lemma hist_sum_nonneg h : Forall (fun x => 0 <= x) h -> 0 <= hist_sum h.
Proof.
  induction 1 as [|x h Hx _ IH]; [done|]. rewrite hist_sum_cons. lia.
Qed.

Lemma elem_le_hist_sum h x :
  Forall (fun y => 0 <= y) h -> x ∈ h -> 0 <= x <= hist_sum h.
Proof.
  induction 1 as [|y h Hy Hh IH]; [by intros ?%elem_of_nil|].
  rewrite hist_sum_cons. pose proof (hist_sum_nonneg h Hh).
  intros [->|Hx]%elem_of_cons; [lia|]. specialize (IH Hx). lia.
Qed.

Lemma bget_elem a i :
  (length a = 1 \/ i < length a)%nat -> bget a i ∈ a.
Proof.
  intros Hi. unfold bget. destruct (Nat.eqb_spec (length a) 1) as [H1|H1].
  - apply list_elem_of_lookup_total_2. lia.
  - apply list_elem_of_lookup_total_2. lia.
Qed.

(** A merge of counters in range stays in range. *)
Lemma np_add_range a b c A :
  np_add a b = Ok c ->
  Forall (fun x => 0 <= x <= A) a -> Forall (fun x => 0 <= x) b ->
  Forall (fun x => 0 <= x <= A + hist_sum b) c.
Proof.
  unfold np_add. destruct (bshape (length a) (length b)) as [k|e] eqn:Hk;
    cbn [bind]; [|done].
  intros [= <-] Ha Hb. apply Forall_fmap, Forall_forall. intros i Hi.
  apply elem_of_seq in Hi. apply bshape_Ok in Hk. cbn [compose].
  assert (bget a i ∈ a) as Hai by (apply bget_elem; lia).
  assert (bget b i ∈ b) as Hbi by (apply bget_elem; lia).
  pose proof (proj1 (Forall_forall _ a) Ha _ Hai) as Hx. cbn beta in Hx.
  pose proof (elem_le_hist_sum b _ Hb Hbi). lia.
Qed.

Lemma agg_loop_range rs : forall st h A s,
  a_latency_stats st = Some h ->
  Forall (fun x => 0 <= x <= A) h ->
  Forall (fun r => Forall (fun x => 0 <= x) (t_latency_stats r)) rs ->
  agg_loop st rs = Ok s ->
  exists h', a_latency_stats s = Some h'
    /\ Forall (fun x => 0 <= x
                 <= A + foldr Z.add 0 (hist_sum ∘ t_latency_stats <$> rs)) h'.
Proof.
  induction rs as [|r rs IH]; intros st h A s Hh HA Hrs; cbn [agg_loop].
  - intros [= <-]. exists h. split; [done|].
    eapply Forall_impl; [exact HA|]. intros x Hx. cbn beta in Hx.
    rewrite fmap_nil. cbn [foldr]. lia.
  - apply Forall_cons in Hrs as [Hr Hrs].
    destruct (agg_step st r) as [s1|e] eqn:Hs1; cbn [bind]; [|done].
    apply agg_step_Ok in Hs1 as (h1 & Hh1 & ->). rewrite Hh in Hh1.
    cbn [merge_hist] in Hh1. intros Hs.
    match type of Hs with
    | agg_loop ?s1 _ = _ =>
        destruct (IH s1 h1 (A + hist_sum (t_latency_stats r)) s eq_refl
                    (np_add_range _ _ _ _ Hh1 HA Hr) Hrs Hs)
          as (h' & Hh' & Hrange)
    end.
    exists h'. split; [done|].
    eapply Forall_impl; [exact Hrange|]. intros x Hx. cbn beta in Hx.
    rewrite fmap_cons. cbn [foldr compose]. lia.
Qed.

(** The buckets of an aggregation of counters in the exact range are in the
    exact range. *)
Lemma agg_results_range rs (bn qn : string) d R h :
  counters_exact rs ->
  agg_results rs bn qn d = Ok R -> latency_stats R = Some h ->
  Forall (fun x => 0 <= x <= 2 ^ 53) h.
Proof.
  intros [Hpos Hsum] (s & Hs & ->)%agg_results_Ok Hh. cbn [latency_stats] in Hh.
  destruct rs as [|r rs]; [by injection Hs as <-|].
  apply Forall_cons in Hpos as [Hr Hrs]. cbn [agg_loop] in Hs.
  destruct (agg_step agg_init r) as [s1|e] eqn:Hs1; cbn [bind] in Hs; [|done].
  apply agg_step_Ok in Hs1 as (h1 & [= <-] & ->).
  assert (Forall (fun x => 0 <= x <= hist_sum (t_latency_stats r))
            (t_latency_stats r)) as Hr0.
  { apply Forall_forall. intros x Hx. by apply elem_le_hist_sum. }
  match type of Hs with
  | agg_loop ?s1 _ = _ =>
      destruct (agg_loop_range rs s1 (t_latency_stats r)
                  (hist_sum (t_latency_stats r)) s eq_refl Hr0 Hrs Hs)
        as (h' & Hh' & Hrange)
  end.
  rewrite Hh in Hh'. injection Hh' as <-.
  eapply Forall_impl; [exact Hrange|]. intros x Hx. cbn beta in Hx.
  rewrite fmap_cons in Hsum. cbn [foldr compose] in Hsum. lia.
Qed.

Lemma counters_exact_perm rs rs' :
  rs ≡ₚ rs' -> counters_exact rs -> counters_exact rs'.
Proof.
  intros Hp [Hpos Hsum]. split; [by rewrite <- Hp|].
  assert (forall l l' : list Z, l ≡ₚ l' -> foldr Z.add 0 l = foldr Z.add 0 l') as Hf.
  { induction 1; simpl; lia. }
  rewrite <- (Hf _ _ (fmap_Permutation (hist_sum ∘ t_latency_stats) _ _ Hp)).
  done.
Qed.

(** A histogram of length 1 is stretched over the other operand. *)
Lemma np_add_one_l (x : Z) b : np_add [x] b = Ok ((fun y => x + y) <$> b).
Proof.
  unfold np_add. cbn [length].
  assert (bshape 1 (length b) = Ok (length b)) as ->.
  { unfold bshape. destruct (Nat.eqb_spec 1 (length b)) as [<-|]; done. }
  cbn [bind]. f_equal. apply list_eq. intros i.
  rewrite !list_lookup_fmap.
  destruct (decide (i < length b)%nat) as [Hi|Hi].
  - rewrite lookup_seq_lt by done.
    destruct (lookup_lt_is_Some_2 b i Hi) as [y Hy]. rewrite Hy. simpl.
    f_equal. unfold bget at 1. simpl. f_equal.
    unfold bget. destruct (Nat.eqb_spec (length b) 1) as [Hb1|Hb1].
    + assert (i = 0)%nat as -> by lia.
      by apply list_lookup_total_correct.
    + by apply list_lookup_total_correct.
  - rewrite lookup_seq_ge by lia.
    by rewrite (lookup_ge_None_2 b i) by lia.
Qed.

Lemma np_add_one_r a (y : Z) : np_add a [y] = Ok ((fun x => x + y) <$> a).
Proof.
  rewrite np_add_comm, np_add_one_l. f_equal.
  apply list_fmap_ext. intros _ x _. lia.
Qed.

(** A merge of a pair in the exact range has its buckets in the exact
    range. *)
Lemma np_add_exact_pair a b c :
  exact_pair a b -> np_add a b = Ok c ->
  Forall (fun z : Z => 0 <= z <= 2 ^ 53) c.
Proof.
  intros (Ha & Hb & Hsum) Hc.
  assert (Forall (fun z : Z => 0 <= z <= hist_sum a) a) as Ha'.
  { apply Forall_forall. intros z Hz. by apply elem_le_hist_sum. }
  pose proof (np_add_range a b c (hist_sum a) Hc Ha' Hb) as Hr.
  eapply Forall_impl; [exact Hr|]. intros z Hz. cbn beta in Hz. lia.
Qed.

(** The results of workers that measured at most 2^53 calls in all are in
    the exact range. *)
Lemma worker_counters_exact (ctx : Context) (runs : list (list Z)) rs :
  0 <= timeout_ceil ctx ->
  Forall (Forall (fun d : Z => 0 <= d)) runs ->
  Forall2 (fun elapsed r =>
             run_benchmark_method ctx (Returns <$> elapsed) = Ok r) runs rs ->
  Z.of_nat (length (concat runs)) <= 2 ^ 53 ->
  counters_exact rs.
Proof.
  intros Hc Hpos Hruns. unfold counters_exact.
  enough (Forall (fun r => Forall (fun z : Z => 0 <= z) (t_latency_stats r)) rs
          /\ foldr Z.add 0 (hist_sum ∘ t_latency_stats <$> rs)
             = Z.of_nat (length (concat runs))) as [H1 H2].
  { intros Hn. split; [done|]. by rewrite H2. }
  induction Hruns as [|elapsed r runs rs Hr _ IH]; [by split|].
  apply Forall_cons in Hpos as [Hpos0 Hpos].
  destruct (IH Hpos) as [IH1 IH2].
  destruct (run_benchmark_method_spec ctx elapsed Hc Hpos0)
    as (h & Hrun & _ & Hsum & Hbk).
  rewrite Hr in Hrun. injection Hrun as ->. cbn [t_latency_stats].
  split.
  - constructor; [|done]. cbn [t_latency_stats].
    apply Forall_lookup. intros i z Hi.
    pose proof (lookup_lt_Some _ _ _ Hi) as Hlt.
    apply list_lookup_total_correct in Hi.
    rewrite <- Hi, (Hbk i Hlt). unfold calls_in_bucket. lia.
  - rewrite fmap_cons. cbn [foldr compose t_latency_stats concat].
    rewrite IH2, Hsum, length_app. lia.
Qed.

(** Both parts of a collection in the exact range are in the exact range. *)
Lemma counters_exact_app xs ys :
  counters_exact (xs ++ ys) -> counters_exact xs /\ counters_exact ys.
Proof.
  intros [Hpos Hsum]. apply Forall_app in Hpos as [Hx Hy].
  rewrite fmap_app, foldr_app in Hsum.
  assert (forall (rs : list raw_result) (a : Z),
            Forall (fun r => Forall (fun z : Z => 0 <= z) (t_latency_stats r)) rs ->
            foldr Z.add a (hist_sum ∘ t_latency_stats <$> rs)
            = a + foldr Z.add 0 (hist_sum ∘ t_latency_stats <$> rs)
              /\ 0 <= foldr Z.add 0 (hist_sum ∘ t_latency_stats <$> rs)) as Hf.
  { intros rs a. induction 1 as [|r rs Hr _ [IH1 IH2]];
      rewrite ?fmap_cons; cbn [foldr compose fmap list_fmap]; [lia|].
    pose proof (hist_sum_nonneg _ Hr). split; lia. }
  destruct (Hf xs (foldr Z.add 0 (hist_sum ∘ t_latency_stats <$> ys)) Hx) as [Hxs Hx0].
  destruct (Hf ys 0 Hy) as [_ Hy0].
  rewrite Hxs in Hsum. split; (split; [done|lia]).
Qed.

End exact_range.

(** * Properties of the specification *)

(** C1. The query count equals the sum over all buckets of the histogram.
    Each measured call adds one to the call counter and one to exactly one
    bucket (of counters below 2^53, which [float64] increments exactly), so a
    worker whose calls all return exits with a count that is the number of
    its calls and the sum of its buckets.  Aggregation preserves
    it: for results of one histogram length that each satisfy it, with
    counters in the range where [float64] adds exactly, the [Result] has the
    sum of the counts as count and the sum of all the workers' buckets as sum
    of its buckets, all of them in that range.  So it holds for the [Result]
    of every dispatch whose workers all return.  (For the empty collection
    the histogram is absent and the count is 0.) *)
Theorem C1_count_equals_histogram_total
    (ctx : Context) (w : World) (benchname queryname : string) (duration : Z)
    (st : raw_result) (t : Z) (elapsed : list Z) (L : nat) (rs : list raw_result) :
  0 <= timeout_ceil ctx ->
  Z.of_nat (length (t_latency_stats st)) = hist_len ctx ->
  Forall (fun c => 0 <= c < 2 ^ 53) (t_latency_stats st) ->
  0 <= t ->
  Forall (fun d => 0 <= d) elapsed ->
  Z.of_nat (length elapsed) <= 2 ^ 53 ->
  Forall (fun r => length (t_latency_stats r) = L
            /\ t_nqueries r = hist_sum (t_latency_stats r)) rs ->
  counters_exact rs ->
  (exists st' j, measure (hist_len ctx - 1) st t = Ok st'
     /\ t_nqueries st' = t_nqueries st + 1
     /\ (j < length (t_latency_stats st))%nat
     /\ t_latency_stats st' = alter Z.succ j (t_latency_stats st)
     /\ hist_sum (t_latency_stats st') = hist_sum (t_latency_stats st) + 1
     /\ Forall (fun c => 0 <= c <= 2 ^ 53) (t_latency_stats st'))
  /\ (exists r, run_benchmark_method ctx (Returns <$> elapsed) = Ok r
        /\ t_nqueries r = Z.of_nat (length elapsed)
        /\ t_nqueries r = hist_sum (t_latency_stats r)
        /\ Forall (fun c => 0 <= c <= 2 ^ 53) (t_latency_stats r))
  /\ (exists R, agg_results rs benchname queryname duration = Ok R
        /\ nqueries R = sum_counts rs
        /\ buckets_total (latency_stats R)
           = foldr Z.add 0 (hist_sum ∘ t_latency_stats <$> rs)
        /\ nqueries R = buckets_total (latency_stats R)
        /\ forall h, latency_stats R = Some h ->
             Forall (fun c => 0 <= c <= 2 ^ 53) h)
  /\ (0 < concurrency ctx -> all_calls_return ctx w queryname ->
      exists R h, run_benchmark_sync ctx w benchname duration queryname = Ok R
        /\ latency_stats R = Some h
        /\ nqueries R = hist_sum h).
Proof.
  intros Hc Hlen0 Hst Ht Hpos Hcalls Hrs Hexact. split; [|split; [|split]].
  - assert (0 < hist_len ctx) as HL by (rewrite hist_len_eq; lia).
    pose proof (measure_spec st t) as Hm. cbv zeta in Hm.
    rewrite Hlen0 in Hm. rewrite Hm by lia. clear Hm.
    pose proof (bucket_of_range (hist_len ctx) t HL Ht) as Hb.
    eexists _, (Z.to_nat (bucket_of (hist_len ctx) t)).
    split; [done|]. cbn [t_nqueries t_latency_stats].
    split; [done|]. split; [lia|]. split; [done|].
    split; [apply hist_sum_alter_succ; lia|].
    apply Forall_alter.
    + eapply Forall_impl; [exact Hst|]. intros c Hc'. cbn beta in Hc'. lia.
    + intros c Hi. pose proof (proj1 (Forall_lookup _ _) Hst _ c Hi) as Hc'.
      cbn beta in Hc'. lia.
  - destruct (run_benchmark_method_spec ctx elapsed Hc Hpos)
      as (h & Hr & _ & Hsum & _).
    match type of Hr with
    | _ = Ok ?r0 =>
        destruct (worker_counters_exact ctx [elapsed] [r0] Hc) as [Hnn Htot]
    end.
    + by repeat constructor.
    + by repeat constructor.
    + cbn [concat]. by rewrite app_nil_r.
    + apply Forall_cons in Hnn as [Hnn _]. cbn [t_latency_stats] in Hnn.
      rewrite fmap_cons in Htot. cbn [foldr compose fmap list_fmap t_latency_stats] in Htot.
      eexists. split; [exact Hr|]. cbn [t_nqueries t_latency_stats].
      split; [done|]. split; [lia|].
      apply Forall_forall. intros c Hin.
      pose proof (elem_le_hist_sum h c Hnn Hin). lia.
  - apply Forall_and in Hrs as [Hlen Hcnt].
    destruct (agg_results_count_ok L rs benchname queryname duration Hlen Hcnt)
      as (R & HR & Hinv & Hsumc & _).
    exists R. split; [exact HR|]. split; [done|]. split.
    + by rewrite <- Hinv, Hsumc, sum_counts_hist_sum.
    + split; [done|]. intros h Hh.
      by apply (agg_results_range rs benchname queryname duration R h).
  - intros Hn Hw.
    destruct (run_benchmark_sync_workers ctx w benchname duration queryname Hc Hn Hw)
      as (ws & -> & Hws & Hlen).
    destruct (agg_results_count_ok _ ws benchname queryname duration
                (worker_ok_same_length ctx ws Hws)) as (R & HR & Hinv & _ & Hnone).
    { eapply Forall_impl; [exact Hws|]. by intros r (_ & ? & _). }
    destruct (latency_stats R) as [h|] eqn:Hh.
    + by exists R, h.
    + rewrite (proj1 Hnone eq_refl) in Hlen. simpl in Hlen. lia.
Qed.

(** One call of 0.05 ms on a fresh histogram, one worker with two calls, and
    the aggregation of two results. *)
Lemma C1_count_equals_histogram_total_witness :
  (exists st', measure (hist_len ctx_example - 1)
                 (RawResult 0 (replicate (Z.to_nat 100001) 0) Inf 0) 50000 = Ok st'
     /\ t_nqueries st' = 0 + 1)
  /\ (exists r, run_benchmark_method ctx_example (Returns <$> [50000; 70000]) = Ok r
        /\ t_nqueries r = hist_sum (t_latency_stats r))
  /\ (exists R, agg_results [RawResult 2 [1; 0; 1] (Fin 0) 2;
                             RawResult 3 [0; 3; 0] (Fin 1) 1]
                  "edgedb" "get_user" 10 = Ok R
        /\ nqueries R = buckets_total (latency_stats R)).
Proof.
  destruct (C1_count_equals_histogram_total ctx_example
              (MkWorld (fun _ _ => []) (fun _ => false))
              "edgedb" "get_user" 10
              (RawResult 0 (replicate (Z.to_nat 100001) 0) Inf 0) 50000
              [50000; 70000] 3
              [RawResult 2 [1; 0; 1] (Fin 0) 2; RawResult 3 [0; 3; 0] (Fin 1) 1])
    as ((st' & j & Hm & Hn & _) & (r & Hr & _ & Hsum & _)
        & (R & HR & _ & _ & HRn & _) & _).
  - simpl. lia.
  - cbn [t_latency_stats]. rewrite length_replicate, Z2Nat.id by lia. reflexivity.
  - cbn [t_latency_stats]. apply Forall_replicate. lia.
  - lia.
  - repeat constructor; lia.
  - vm_compute. discriminate.
  - repeat constructor.
  - split; [repeat constructor; lia|]. vm_compute. discriminate.
  - split; [exists st'; split; [exact Hm|exact Hn]|].
    split; [exists r; split; [exact Hr|exact Hsum]|].
    exists R. split; [exact HR|exact HRn].
Defined.

(** C2. Aggregation does not depend on the order or on the grouping of the
    worker results, for counters in the range where [float64] adds exactly
    (not negative, at most 2^53 over all workers and buckets).  Any
    permutation of such a collection gives the same outcome of
    [agg_results]: the same [Result], with the same histogram buckets, count,
    minimum and maximum, or the same exception.  Splitting it in two
    non-empty parts, aggregating each and aggregating the two partial
    results gives the [Result] of the whole; if a part cannot be aggregated,
    neither can the whole.  Every bucket of the whole and of the parts stays
    in the exact range, so no order or grouping meets a rounded sum. *)
Theorem C2_aggregation_order_and_grouping
    (rs : list raw_result) (benchname queryname : string) (duration : Z) :
  counters_exact rs ->
  (forall rs', rs ≡ₚ rs' ->
     agg_results rs' benchname queryname duration
     = agg_results rs benchname queryname duration
     /\ counters_exact rs')
  /\ (forall R h, agg_results rs benchname queryname duration = Ok R ->
        latency_stats R = Some h -> Forall (fun c => 0 <= c <= 2 ^ 53) h)
  /\ (forall xs ys, xs <> [] -> ys <> [] -> rs = xs ++ ys ->
        (forall X Y,
           agg_results xs benchname queryname duration = Ok X ->
           agg_results ys benchname queryname duration = Ok Y ->
           exists x y, raw_of_result X = Some x /\ raw_of_result Y = Some y
             /\ agg_results [x; y] benchname queryname duration
                = agg_results rs benchname queryname duration
             /\ Forall (fun c => 0 <= c <= 2 ^ 53) (t_latency_stats x)
             /\ Forall (fun c => 0 <= c <= 2 ^ 53) (t_latency_stats y))
        /\ (is_ok (agg_results xs benchname queryname duration) = false
            \/ is_ok (agg_results ys benchname queryname duration) = false ->
            is_ok (agg_results rs benchname queryname duration) = false)).
Proof.
  intros Hexact. split; [|split].
  - intros rs' Hp. split; [|by apply (counters_exact_perm rs)].
    unfold agg_results. by rewrite (agg_loop_perm _ _ _ Hp).
  - intros R h. by apply agg_results_range.
  - intros xs ys Hxs Hys ->. split.
    + intros X Y HX HY.
      destruct (counters_exact_app _ _ Hexact) as [Hex Hey].
      pose proof (fun h => agg_results_range xs benchname queryname duration X h
                             Hex HX) as HXr.
      pose proof (fun h => agg_results_range ys benchname queryname duration Y h
                             Hey HY) as HYr.
      apply agg_results_Ok in HX as (sx & Hsx & ->).
      apply agg_results_Ok in HY as (sy & Hsy & ->).
      cbn [latency_stats] in HXr, HYr.
      destruct xs as [|x0 xs]; [done|]. destruct ys as [|r rest]; [done|].
      destruct (agg_loop_init_merged _ _ _ Hsx) as [[hx Hhx] Hmx].
      destruct (agg_loop_init_merged _ _ _ Hsy) as [[hy Hhy] _].
      exists (raw_of_state sx hx), (raw_of_state sy hy).
      unfold raw_of_result. cbn [latency_stats nqueries min_latency max_latency].
      rewrite Hhx, Hhy. split; [done|]. split; [done|].
      split; [|split; [exact (HXr hx Hhx)|exact (HYr hy Hhy)]].
      unfold agg_results. f_equal.
      rewrite agg_loop_app, Hsx. cbn [bind].
      assert (agg_step agg_init (raw_of_state sx hx) = Ok sx) as Hinit.
      { rewrite agg_step_eq. destruct sx as [mn mx n o]. simpl in *.
        rewrite Hhx, lat_min_Inf_r, Z.max_l by lia. done. }
      cbn [agg_loop]. rewrite Hinit. cbn [bind]. rewrite bind_ret_r.
      cbn [agg_loop] in Hsy.
      destruct (agg_step agg_init r) as [t|] eqn:Ht; cbn [bind] in Hsy; [|done].
      apply agg_step_Ok in Ht as (ht & [= <-] & ->).
      match type of Hsy with
      | agg_loop ?t _ = _ =>
          rewrite <- (agg_loop_absorb rest t (t_latency_stats r) sy sx hy
                        (mk_is_Some _ _ Hhx) eq_refl Hsy Hhy)
      end.
      f_equal. rewrite !agg_step_eq. unfold raw_of_state.
      cbn [t_latency_stats t_min_latency t_max_latency t_nqueries
           a_min_latency a_max_latency a_nqueries a_latency_stats agg_init].
      rewrite lat_min_Inf_r, Z.add_0_l.
      replace (Z.max (Z.max (t_max_latency r) 0) (a_max_latency sx))
        with (Z.max (t_max_latency r) (a_max_latency sx)) by lia.
      done.
    + intros [Hx|Hy].
      * unfold agg_results in *. rewrite agg_loop_app.
        destruct (agg_loop agg_init xs); [done|done].
      * assert (xs ++ ys ≡ₚ ys ++ xs) as Hp by apply Permutation_app_comm.
        unfold agg_results in *. rewrite (agg_loop_perm _ _ _ Hp), agg_loop_app.
        destruct (agg_loop agg_init ys); [done|done].
Qed.

(** Exchanging two worker results changes nothing. *)
Lemma C2_aggregation_order_and_grouping_witness :
  agg_results [RawResult 3 [0; 2; 1] (Fin 1) 7; RawResult 2 [1; 0; 1] (Fin 0) 2]
    "edgedb" "get_user" 10
  = agg_results [RawResult 2 [1; 0; 1] (Fin 0) 2; RawResult 3 [0; 2; 1] (Fin 1) 7]
      "edgedb" "get_user" 10.
Proof.
  destruct (C2_aggregation_order_and_grouping
              [RawResult 2 [1; 0; 1] (Fin 0) 2; RawResult 3 [0; 2; 1] (Fin 1) 7]
              "edgedb" "get_user" 10) as [Hperm _].
  - split; [repeat constructor; lia|]. vm_compute. discriminate.
  - apply Hperm, perm_swap.
Defined.

(** C3. For a non-empty collection of worker results (histograms of one
    length, zero-call workers carrying the sentinels), the aggregated
    [Result] has the sum of the counts, the maximum of all [max_latency]
    values, and as [min_latency] the minimum over the workers that recorded a
    call (the infinite sentinel if none did).  Workers without a call
    contribute nothing: aggregating only the others gives the same count,
    minimum and maximum. *)
Theorem C3_aggregated_count_min_max
    (L : nat) (rs : list raw_result) (benchname queryname : string) (duration : Z) :
  rs <> [] ->
  Forall (fun r => length (t_latency_stats r) = L) rs ->
  Forall sentinels_ok rs ->
  exists R, agg_results rs benchname queryname duration = Ok R
    /\ nqueries R = sum_counts rs
    /\ is_maximum (max_latency R) (t_max_latency <$> rs)
    /\ (recorded rs <> [] ->
          is_minimum (min_latency R) (t_min_latency <$> recorded rs))
    /\ (recorded rs = [] -> min_latency R = Inf)
    /\ exists R', agg_results (recorded rs) benchname queryname duration = Ok R'
         /\ nqueries R' = nqueries R
         /\ min_latency R' = min_latency R
         /\ max_latency R' = max_latency R.
Proof.
  intros Hne Hlen Hok.
  destruct (agg_loop_same_length L rs agg_init) as (s & Hs & _); [done|done|].
  destruct (agg_loop_fields _ _ _ Hs) as (Hn & Hmx & Hmn).
  destruct (agg_loop_same_length L (recorded rs) agg_init) as (s' & Hs' & _);
    [done|by apply Forall_recorded|].
  destruct (agg_loop_fields _ _ _ Hs') as (Hn' & Hmx' & Hmn').
  destruct (recorded_same_fold rs Hok) as (En & Emx & Emn).
  simpl in Hn, Hmx, Hmn, Hn', Hmx', Hmn'.
  eexists. split; [apply agg_results_Ok; eauto|].
  cbn [nqueries max_latency min_latency].
  split; [lia|]. split.
  { rewrite Hmx. apply fold_is_maximum; [done|].
    eapply Forall_impl; [exact Hok|]. by intros r (_ & ? & _). }
  split.
  { intros Hrec. rewrite Hmn, <- Emn. by apply fold_is_minimum. }
  split.
  { intros Hrec. rewrite Hmn, <- Emn, Hrec. done. }
  eexists. split; [apply agg_results_Ok; eauto|].
  cbn [nqueries max_latency min_latency].
  rewrite Hn, Hmx, Hmn, Hn', Hmx', Hmn', En, Emx, Emn. done.
Qed.

(** An idle worker between two busy ones. *)
Lemma C3_aggregated_count_min_max_witness :
  exists R,
    agg_results [RawResult 2 [1; 0; 1] (Fin 0) 2;
                 RawResult 0 [0; 0; 0] Inf 0;
                 RawResult 3 [0; 2; 1] (Fin 1) 7] "edgedb" "get_user" 10 = Ok R
    /\ nqueries R = 5.
Proof.
  destruct (C3_aggregated_count_min_max 3
              [RawResult 2 [1; 0; 1] (Fin 0) 2;
               RawResult 0 [0; 0; 0] Inf 0;
               RawResult 3 [0; 2; 1] (Fin 1) 7] "edgedb" "get_user" 10)
    as (R & HR & Hn & _).
  - discriminate.
  - repeat constructor.
  - unfold sentinels_ok. repeat constructor; simpl; try lia; try done.
  - exists R. split; [exact HR|]. rewrite Hn. reflexivity.
Defined.

(** C4. A non-negative latency of [t] nanoseconds is recorded without
    failure in a histogram of length [L = ceil(timeout) * 100_000 + 1]:
    bucket [min (t / 10000) (L - 1)] grows by one, every other bucket and the
    length stay as they were, and the call counter grows by one.  A latency
    at or beyond the ceiling lands in the last bucket, [L - 1]. *)
Theorem C4_record_clamped_bucket (ctx : Context) (st : raw_result) (t : Z) :
  0 <= timeout_ceil ctx ->
  0 <= t ->
  Z.of_nat (length (t_latency_stats st)) = hist_len ctx ->
  let L := timeout_ceil ctx * 100000 + 1 in
  let j := Z.min (t `div` 10000) (L - 1) in
  (exists h0, np_zeros (hist_len ctx) = Ok h0 /\ Z.of_nat (length h0) = L)
  /\ exists st', measure (hist_len ctx - 1) st t = Ok st'
       /\ length (t_latency_stats st') = length (t_latency_stats st)
       /\ (forall i : nat,
             t_latency_stats st' !!! i =
             t_latency_stats st !!! i + (if decide (Z.of_nat i = j) then 1 else 0))
       /\ t_nqueries st' = t_nqueries st + 1
       /\ (L - 1 <= t `div` 10000 -> j = L - 1).
Proof.
  intros Hc Ht Hlen L j.
  assert (hist_len ctx = L) as HL by apply hist_len_eq.
  split.
  { eexists. split; [apply np_zeros_ok; lia|]. rewrite length_replicate. lia. }
  pose proof (measure_spec st t) as Hm. cbv zeta in Hm.
  rewrite Hlen in Hm. rewrite Hm by lia. clear Hm.
  eexists. split; [done|]. cbn [t_latency_stats t_nqueries].
  pose proof (bucket_of_range (hist_len ctx) t ltac:(lia) Ht) as Hb.
  split; [apply length_alter|]. split; [|split; [done|lia]].
  intros i. rewrite lookup_total_alter_succ by lia.
  assert (bucket_of (hist_len ctx) t = j) as Hj by (by rewrite HL).
  rewrite Hj in *.
  destruct (decide (Z.to_nat j = i)), (decide (Z.of_nat i = j)); lia.
Qed.

(** A first call of 2.5 seconds under a timeout of one second: the bucket is
    the last one, 100000. *)
Lemma C4_record_clamped_bucket_witness :
  exists st',
    measure (hist_len ctx_example - 1)
      (RawResult 0 (replicate (Z.to_nat 100001) 0) Inf 0) 2500000000 = Ok st'
    /\ t_nqueries st' = 0 + 1
    /\ Z.min (2500000000 `div` 10000) (timeout_ceil ctx_example * 100000 + 1 - 1)
       = timeout_ceil ctx_example * 100000 + 1 - 1.
Proof.
  destruct (C4_record_clamped_bucket ctx_example
              (RawResult 0 (replicate (Z.to_nat 100001) 0) Inf 0) 2500000000)
    as (_ & st' & Hm & _ & _ & Hn & Hj).
  - simpl. lia.
  - lia.
  - cbn [t_latency_stats]. rewrite length_replicate, Z2Nat.id by lia. reflexivity.
  - exists st'. split; [exact Hm|]. split; [exact Hn|].
    apply Hj. vm_compute. discriminate.
Defined.

(** C5, as the code has it.  Merging is [np.add] on [float64] counters; the
    sums below are those of counters in the range where [float64] adds
    exactly (not negative, at most 2^53 in all), and stay in that range.  For
    two such histograms of one length [L] it returns a new array of length
    [L] whose bucket [i] is the sum of the two buckets [i].  For two
    histograms of different lengths, neither of them 1, it raises numpy's
    broadcast [ValueError] and returns nothing, and an aggregation that
    reaches such a pair returns no [Result].  A histogram of length 1,
    on either side, is not rejected: its one bucket is added to every bucket
    of the other. *)
Theorem C5_merge_by_length (a b : list Z) :
  (length a = length b -> exact_pair a b ->
     exists c, np_add a b = Ok c /\ length c = length a
       /\ Forall (fun z => 0 <= z <= 2 ^ 53) c
       /\ forall i x y, a !! i = Some x -> b !! i = Some y ->
            c !! i = Some (x + y) /\ 0 <= x + y <= 2 ^ 53)
  /\ (length a <> length b -> length a <> 1%nat -> length b <> 1%nat ->
        np_add a b = Err ValueError_broadcast
        /\ forall n1 n2 mn1 mn2 mx1 mx2 rs benchname queryname duration,
             agg_results (RawResult n1 a mn1 mx1 :: RawResult n2 b mn2 mx2 :: rs)
               benchname queryname duration = Err ValueError_broadcast)
  /\ (forall x, a = [x] -> exact_pair a b ->
        np_add a b = Ok ((fun y => x + y) <$> b)
        /\ Forall (fun z => 0 <= z <= 2 ^ 53) ((fun y => x + y) <$> b))
  /\ (forall y, b = [y] -> exact_pair a b ->
        np_add a b = Ok ((fun x => x + y) <$> a)
        /\ Forall (fun z => 0 <= z <= 2 ^ 53) ((fun x => x + y) <$> a)).
Proof.
  split; [|split; [|split]].
  - intros Hl Hex.
    pose proof (np_add_same_length a b Hl) as Hc.
    pose proof (np_add_exact_pair a b _ Hex Hc) as Hr.
    exists (zip_with Z.add a b).
    split; [done|].
    split; [rewrite length_zip_with; lia|].
    split; [done|].
    intros i x y Hx Hy.
    assert (zip_with Z.add a b !! i = Some (x + y)) as Hi.
    { by rewrite lookup_zip_with, Hx; simpl; rewrite Hy. }
    split; [done|].
    exact (proj1 (Forall_lookup _ _) Hr i (x + y) Hi).
  - intros Hne Ha Hb.
    assert (np_add a b = Err ValueError_broadcast) as Herr.
    { by apply np_add_Err_iff. }
    split; [done|]. intros.
    unfold agg_results. cbn [agg_loop]. rewrite agg_step_eq. cbn [bind merge_hist agg_init a_latency_stats t_latency_stats].
    rewrite agg_step_eq. cbn [merge_hist a_latency_stats t_latency_stats].
    by rewrite Herr.
  - intros x -> Hex. pose proof (np_add_one_l x b) as Hc.
    split; [done|]. by apply (np_add_exact_pair [x] b).
  - intros y -> Hex. pose proof (np_add_one_r a y) as Hc.
    split; [done|]. by apply (np_add_exact_pair a [y]).
Qed.

(** Lengths 100 and 101 are rejected; equal lengths are added bucket by
    bucket; a single bucket is added to each bucket of the other operand. *)
Lemma C5_merge_by_length_witness :
  np_add (replicate 100 1) (replicate 101 2) = Err ValueError_broadcast
  /\ (exists c, np_add [1; 2; 3] [10; 20; 30] = Ok c /\ length c = 3%nat)
  /\ np_add [5] [1; 2] = Ok [6; 7]
  /\ np_add [1; 2] [5] = Ok [6; 7].
Proof.
  assert (forall a b : list Z,
            Forall (fun c => 0 <= c) a -> Forall (fun c => 0 <= c) b ->
            hist_sum a + hist_sum b <= 2 ^ 53 -> exact_pair a b) as Hex.
  { intros a b Ha Hb Hs. split; [exact Ha|]. split; [exact Hb|exact Hs]. }
  split; [|split; [|split]].
  - apply (C5_merge_by_length (replicate 100 1) (replicate 101 2));
      rewrite !length_replicate; lia.
  - destruct (proj1 (C5_merge_by_length [1; 2; 3] [10; 20; 30]) eq_refl)
      as (c & Hc & Hl & _).
    + apply Hex; [repeat constructor; lia..|vm_compute; discriminate].
    + exists c. split; [exact Hc|exact Hl].
  - destruct (proj1 (proj2 (proj2 (C5_merge_by_length [5] [1; 2]))) 5 eq_refl)
      as [Hc _].
    + apply Hex; [repeat constructor; lia..|vm_compute; discriminate].
    + exact Hc.
  - destruct (proj2 (proj2 (proj2 (C5_merge_by_length [1; 2] [5]))) 5 eq_refl)
      as [Hc _].
    + apply Hex; [repeat constructor; lia..|vm_compute; discriminate].
    + exact Hc.
Defined.

(** C5 as stated fails for a histogram of length 1: numpy stretches it over
    the other operand and the merge succeeds although the lengths differ. *)
Lemma C5_length_one_is_broadcast :
  length [5] <> length [1; 2] /\ np_add [5] [1; 2] = Ok [6; 7].
Proof. split; [simpl; lia|reflexivity]. Qed.

(** C6, as the code has it.  The aggregator has no NoResults condition: it
    returns a [Result] for the empty collection.  It raises exactly when two
    of the results hold histograms whose lengths differ and are both other
    than 1, and what it raises is numpy's broadcast [ValueError]; such a
    collection has at least two results. *)
Theorem C6_agg_results_fails_iff_lengths_clash
    (rs : list raw_result) (benchname queryname : string) (duration : Z) (e : exn) :
  (agg_results rs benchname queryname duration = Err e <->
     e = ValueError_broadcast
     /\ exists r1 r2, r1 ∈ rs /\ r2 ∈ rs
          /\ incompatible (length (t_latency_stats r1)) (length (t_latency_stats r2)))
  /\ (agg_results rs benchname queryname duration = Err e -> (2 <= length rs)%nat)
  /\ is_ok (agg_results [] benchname queryname duration) = true.
Proof.
  assert (agg_results rs benchname queryname duration = Err e <->
     e = ValueError_broadcast
     /\ exists r1 r2, r1 ∈ rs /\ r2 ∈ rs
          /\ incompatible (length (t_latency_stats r1)) (length (t_latency_stats r2)))
    as Hiff.
  { rewrite agg_results_Err, agg_loop_Err_init. unfold clash.
    split; intros [-> H]; (split; [done|]).
    - destruct H as (n & m & Hn & Hm & Hi).
      apply list_elem_of_fmap in Hn as (r1 & -> & Hr1).
      apply list_elem_of_fmap in Hm as (r2 & -> & Hr2).
      by exists r1, r2.
    - destruct H as (r1 & r2 & Hr1 & Hr2 & Hi).
      exists (length (t_latency_stats r1)), (length (t_latency_stats r2)).
      split; [|split; [|done]]; apply list_elem_of_fmap; eauto. }
  split; [done|]. split; [|done].
  intros (_ & r1 & r2 & Hr1 & Hr2 & Hne & _)%Hiff.
  destruct rs as [|x [|y rs]]; simpl; [|
    apply list_elem_of_singleton in Hr1, Hr2; congruence|lia].
  by apply elem_of_nil in Hr1.
Qed.

(** At two histograms of lengths 2 and 3 the aggregator raises. *)
Lemma C6_agg_results_fails_iff_lengths_clash_witness :
  agg_results [RawResult 1 [1; 0] (Fin 0) 0; RawResult 1 [0; 0; 1] (Fin 2) 2]
    "edgedb" "get_user" 10 = Err ValueError_broadcast.
Proof.
  apply (C6_agg_results_fails_iff_lengths_clash
           [RawResult 1 [1; 0] (Fin 0) 0; RawResult 1 [0; 0; 1] (Fin 2) 2]).
  split; [reflexivity|].
  exists (RawResult 1 [1; 0] (Fin 0) 0), (RawResult 1 [0; 0; 1] (Fin 2) 2).
  split; [apply list_elem_of_here|].
  split; [apply list_elem_of_further, list_elem_of_here|].
  unfold incompatible. simpl. lia.
Defined.

(** C6 as stated fails at the empty collection: the aggregator returns a
    [Result] there, so it is not true that it fails exactly on empty input. *)
Lemma C6_agg_results_empty_does_not_fail :
  agg_results [] "edgedb" "get_user" 10
    = Ok (MkResult "edgedb" "get_user" 0 10 Inf 0 None)
  /\ ~ (forall (rs : list raw_result) b q d,
          is_ok (agg_results rs b q d) = false <-> rs = []).
Proof.
  split; [reflexivity|].
  intros H. by specialize (proj2 (H [] ""%string ""%string 0) eq_refl).
Qed.

(** C7. In every worker result and every aggregated [Result]:
    [min_latency <= max_latency] when the count is positive, and
    [min_latency] is the infinite sentinel and [max_latency] is 0 when the
    count is 0. *)
Theorem C7_min_le_max_or_sentinels
    (ctx : Context) (w : World) (benchname queryname : string) (duration : Z)
    (elapsed : list Z) (L : nat) (rs : list raw_result) :
  0 <= timeout_ceil ctx ->
  Forall (fun d => 0 <= d) elapsed ->
  Forall (fun r => length (t_latency_stats r) = L /\ 0 <= t_nqueries r
            /\ minmax_ok (t_nqueries r) (t_min_latency r) (t_max_latency r)) rs ->
  (exists r, run_benchmark_method ctx (Returns <$> elapsed) = Ok r
     /\ (0 < t_nqueries r -> lat_le (t_min_latency r) (Fin (t_max_latency r)))
     /\ (t_nqueries r = 0 -> t_min_latency r = Inf /\ t_max_latency r = 0))
  /\ (exists R, agg_results rs benchname queryname duration = Ok R
        /\ (0 < nqueries R -> lat_le (min_latency R) (Fin (max_latency R)))
        /\ (nqueries R = 0 -> min_latency R = Inf /\ max_latency R = 0))
  /\ (0 < concurrency ctx -> all_calls_return ctx w queryname ->
      exists R, run_benchmark_sync ctx w benchname duration queryname = Ok R
        /\ (0 < nqueries R -> lat_le (min_latency R) (Fin (max_latency R)))
        /\ (nqueries R = 0 -> min_latency R = Inf /\ max_latency R = 0)).
Proof.
  intros Hc Hpos Hrs. split; [|split].
  - destruct (run_benchmark_method_ok ctx elapsed Hc Hpos)
      as (r & Hr & _ & _ & _ & _ & Hmm).
    by exists r.
  - apply Forall_and in Hrs as [Hlen Hok].
    destruct (agg_results_minmax_ok L rs benchname queryname duration Hlen Hok)
      as (R & HR & Hmm).
    by exists R.
  - intros Hn Hw.
    destruct (run_benchmark_sync_workers ctx w benchname duration queryname Hc Hn Hw)
      as (ws & -> & Hws & _).
    destruct (agg_results_minmax_ok _ ws benchname queryname duration
                (worker_ok_same_length ctx ws Hws)) as (R & HR & Hmm).
    { eapply Forall_impl; [exact Hws|]. by intros r (_ & _ & ? & _ & ?). }
    by exists R.
Qed.

(** A worker with two calls, and the aggregation of an idle worker with a
    busy one. *)
Lemma C7_min_le_max_or_sentinels_witness :
  (exists r, run_benchmark_method ctx_example (Returns <$> [50000; 70000]) = Ok r
     /\ (0 < t_nqueries r -> lat_le (t_min_latency r) (Fin (t_max_latency r))))
  /\ (exists R, agg_results [RawResult 0 [0; 0; 0] Inf 0;
                             RawResult 3 [0; 2; 1] (Fin 1) 2]
                  "edgedb" "get_user" 10 = Ok R
        /\ (0 < nqueries R -> lat_le (min_latency R) (Fin (max_latency R)))).
Proof.
  destruct (C7_min_le_max_or_sentinels ctx_example
              (MkWorld (fun _ _ => []) (fun _ => false))
              "edgedb" "get_user" 10 [50000; 70000] 3
              [RawResult 0 [0; 0; 0] Inf 0; RawResult 3 [0; 2; 1] (Fin 1) 2])
    as ((r & Hr & Hrpos & _) & (R & HR & HRpos & _) & _).
  - simpl. lia.
  - repeat constructor; lia.
  - unfold minmax_ok. repeat constructor; simpl; try lia; try done.
  - split.
    + exists r. split; [exact Hr|exact Hrpos].
    + exists R. split; [exact HR|exact HRpos].
Defined.

(** C8, as the code has it.  [run_sync] has no handler around
    [print_result]: when the report of a completed [Result] fails, the
    exception leaves [run_sync], no list of results is returned and no later
    query name is dispatched.  A failure of the dispatch itself ends the run
    in the same way. *)
Theorem C8_reporting_failure_aborts_run
    (ctx : Context) (w : World) (benchname : string)
    (pre : list string) (q : string) (post : list string)
    (out : list event) (results : list Result) :
  queries ctx = pre ++ q :: post ->
  run_queries ctx w benchname pre [] [] = (out, Ok results) ->
  (forall res out' e,
     run_benchmark_sync ctx w benchname (ctx_duration ctx) q = Ok res ->
     print_result ctx w res (out ++ [Dispatched q]) = (out', Err e) ->
     run_sync ctx w benchname = (out', Err e)
     /\ dispatched out' = pre ++ [q])
  /\ (forall e,
        run_benchmark_sync ctx w benchname (ctx_duration ctx) q = Err e ->
        run_sync ctx w benchname = (out ++ [Dispatched q], Err e)
        /\ dispatched (out ++ [Dispatched q]) = pre ++ [q]).
Proof.
  intros Hqs Hpre.
  pose proof (run_queries_Ok_dispatched _ _ _ _ _ _ _ _ Hpre) as Hd.
  simpl in Hd.
  split.
  - intros res out' e Hres Hprint. split.
    + unfold run_sync. rewrite Hqs, run_queries_app, Hpre.
      cbn [run_queries]. by rewrite Hres, Hprint.
    + rewrite (print_result_dispatched _ _ _ _ _ _ Hprint), dispatched_app, Hd.
      done.
  - intros e Hres. split.
    + unfold run_sync. rewrite Hqs, run_queries_app, Hpre.
      cbn [run_queries]. by rewrite Hres.
    + by rewrite dispatched_app, Hd.
Qed.

(** Three queries, standard output breaking at the report of the second:
    the run ends with [OSError] and the third query is never dispatched. *)
Lemma C8_reporting_failure_aborts_run_witness :
  exists out',
    run_sync ctx_runner world_broken_stdout "edgedb" = (out', Err OSError)
    /\ dispatched out' = ["get_user"; "get_movie"]%string.
Proof.
  destruct (C8_reporting_failure_aborts_run ctx_runner world_broken_stdout "edgedb"
              ["get_user"%string] "get_movie" ["get_person"%string]
              (fst (run_queries ctx_runner world_broken_stdout "edgedb"
                      ["get_user"%string] [] []))
              [MkResult "edgedb" "get_user" 2 10 (Fin 5) 7 (Some [2])])
    as [Hreport _].
  - reflexivity.
  - vm_compute. reflexivity.
  - eexists. eapply Hreport.
    + vm_compute. reflexivity.
    + vm_compute. reflexivity.
Defined.

(** C8 as stated fails.  With a measured duration of 0 seconds the report of
    the first query divides by zero, and with a broken standard output the
    report raises [OSError]; either way [run_sync] raises and the second
    query name is never dispatched. *)
Lemma C8_reporting_failure_is_fatal :
  (let ctx := MkContext 1 0 1 ["get_user"; "get_movie"]%string in
   let w := MkWorld (fun _ _ => []) (fun _ => false) in
   snd (run_sync ctx w "edgedb") = Err ZeroDivisionError
   /\ dispatched (fst (run_sync ctx w "edgedb")) = ["get_user"%string])
  /\ (let ctx := MkContext 1 10 1 ["get_user"; "get_movie"]%string in
      let w := MkWorld (fun _ _ => [Returns 50000; Returns 70000])
                 (fun q => bool_decide (q = "get_user"%string)) in
      snd (run_sync ctx w "edgedb") = Err OSError
      /\ dispatched (fst (run_sync ctx w "edgedb")) = ["get_user"%string]).
Proof. vm_compute. repeat split; reflexivity. Qed.

(** C9. A worker's [max_latency] is the largest latency it measured, in
    units of 10 microseconds and not clamped, while each call at or beyond
    the ceiling is counted in the last bucket [L - 1].  When a call exceeded
    the ceiling, [max_latency] is larger than the highest bucket index and
    the histogram has no bucket at [max_latency]. *)
Theorem C9_max_latency_unclamped (ctx : Context) (elapsed : list Z) :
  0 <= timeout_ceil ctx ->
  Forall (fun d => 0 <= d) elapsed ->
  let L := hist_len ctx in
  exists r, run_benchmark_method ctx (Returns <$> elapsed) = Ok r
    /\ t_max_latency r = foldr Z.max 0 ((fun d => d `div` 10000) <$> elapsed)
    /\ (forall d, d ∈ elapsed -> d `div` 10000 <= t_max_latency r)
    /\ Z.of_nat (length (t_latency_stats r)) = L
    /\ t_latency_stats r !!! Z.to_nat (L - 1) =
       Z.of_nat (length (filter (fun d => L - 1 <= d `div` 10000) elapsed))
    /\ (forall d, d ∈ elapsed -> L - 1 < d `div` 10000 ->
          L - 1 < t_max_latency r
          /\ t_latency_stats r !! Z.to_nat (t_max_latency r) = None).
Proof.
  intros Hc Hpos L.
  destruct (run_benchmark_method_spec ctx elapsed Hc Hpos)
    as (h & Hrun & Hlen & _ & Hbk).
  eexists. split; [exact Hrun|]. cbn [t_max_latency t_latency_stats].
  assert (0 < L) as HL by (unfold L; rewrite hist_len_eq; lia).
  assert (forall d, d ∈ elapsed ->
            d `div` 10000 <= foldr Z.max 0 (req_time_of <$> elapsed)) as Hge.
  { intros d Hd. apply foldr_max_ge.
    apply list_elem_of_fmap. by exists d. }
  split; [done|]. split; [done|]. split; [done|]. split.
  - rewrite Hbk by lia. unfold calls_in_bucket. fold L. f_equal. f_equal.
    clear -Hpos HL. induction Hpos as [|d l Hd _ IH]; [done|].
    rewrite !filter_cons, IH.
    pose proof (req_time_nonneg d Hd) as Hr. unfold bucket_of, req_time_of in *.
    destruct (decide (Z.to_nat (Z.min (d `div` 10000) (L - 1)) = Z.to_nat (L - 1))),
      (decide (L - 1 <= d `div` 10000)); try done; lia.
  - intros d Hd Hlt. specialize (Hge d Hd). split; [lia|].
    apply lookup_ge_None_2. lia.
Qed.

(** Three calls under a timeout of one second, one of them of 2.5 seconds:
    [max_latency] is 250000 although the last bucket index is 100000. *)
Lemma C9_max_latency_unclamped_witness :
  exists r,
    run_benchmark_method ctx_example (Returns <$> [50000; 2500000000; 70000]) = Ok r
    /\ t_max_latency r = 250000
    /\ hist_len ctx_example - 1 = 100000
    /\ t_latency_stats r !! Z.to_nat (t_max_latency r) = None.
Proof.
  destruct (C9_max_latency_unclamped ctx_example [50000; 2500000000; 70000])
    as (r & Hrun & Hmax & _ & _ & _ & Hover).
  - simpl. lia.
  - repeat constructor; lia.
  - exists r. split; [exact Hrun|]. split; [rewrite Hmax; reflexivity|].
    split; [reflexivity|].
    apply (Hover 2500000000).
    + apply list_elem_of_further, list_elem_of_here.
    + reflexivity.
Defined.

(** C10. Given the empty collection of worker results, [agg_results] returns
    normally: a [Result] with [nqueries = 0], [min_latency] the infinite
    sentinel, [max_latency = 0] and [latency_stats = None], not an array of
    zero buckets. *)
Theorem C10_agg_results_empty (benchname queryname : string) (duration : Z) :
  agg_results [] benchname queryname duration =
  Ok (MkResult benchname queryname 0 duration Inf 0 None).
Proof. reflexivity. Qed.

(** * Further properties of the code *)

(** ** The worker, call by call *)

Section worker_more.
Implicit Types (st : raw_result) (elapsed : list Z) (calls : list call).

Lemma filter_ext_Forall {A} (P Q : A -> Prop)
    `{!forall x, Decision (P x)} `{!forall x, Decision (Q x)} (l : list A) :
  Forall (fun x => P x <-> Q x) l -> filter P l = filter Q l.
Proof.
  induction 1 as [|x l Hx _ IH]; [done|].
  rewrite !filter_cons, IH.
  destruct (decide (P x)), (decide (Q x)); tauto.
Qed.

Lemma measured_phase_app m st calls1 calls2 :
  measured_phase m st (calls1 ++ calls2) =
  bind (measured_phase m st calls1) (fun st' => measured_phase m st' calls2).
Proof.
  revert st. induction calls1 as [|[d|] calls1 IH]; intros st; cbn [app measured_phase].
  - done.
  - destruct (measure m st d); cbn [bind]; [apply IH|done].
  - done.
Qed.

Lemma foldr_lat_min_Fin (l : list Z) :
  l <> [] ->
  exists m, foldr lat_min Inf (Fin <$> l) = Fin m
    /\ m ∈ l /\ Forall (fun x => m <= x) l.
Proof.
  induction l as [|x l IH]; [done|]. intros _.
  rewrite fmap_cons. cbn [foldr].
  destruct l as [|y l].
  - exists x. simpl. split; [done|]. split; [by left|]. repeat constructor. lia.
  - destruct (IH ltac:(done)) as (m & -> & Hm & Hall).
    rewrite lat_min_Fin. exists (Z.min x m). split; [done|]. split.
    + destruct (Z.min_spec x m) as [[_ ->]|[_ ->]]; [by left|by right].
    + constructor; [lia|]. eapply Forall_impl; [exact Hall|]. intros; simpl in *; lia.
Qed.

Lemma foldr_max_perm a (l1 l2 : list Z) :
  l1 ≡ₚ l2 -> foldr Z.max a l1 = foldr Z.max a l2.
Proof.
  induction 1 as [|x l l' _ IH|x y l|l l' l'' _ IH1 _ IH2]; simpl; lia.
Qed.

Lemma foldr_lat_min_perm a (l1 l2 : list latency) :
  l1 ≡ₚ l2 -> foldr lat_min a l1 = foldr lat_min a l2.
Proof.
  induction 1 as [|x l l' _ IH|x y l|l l' l'' _ IH1 _ IH2]; simpl.
  - done.
  - by rewrite IH.
  - by rewrite !lat_min_assoc, (lat_min_comm x y).
  - by rewrite IH1.
Qed.

Lemma calls_in_bucket_perm len i elapsed1 elapsed2 :
  elapsed1 ≡ₚ elapsed2 ->
  calls_in_bucket len i elapsed1 = calls_in_bucket len i elapsed2.
Proof. intros Hp. unfold calls_in_bucket. by rewrite Hp. Qed.

Lemma run_benchmark_method_Raises ctx elapsed (rest : list call) :
  0 <= timeout_ceil ctx ->
  Forall (fun d => 0 <= d) elapsed ->
  run_benchmark_method ctx ((Returns <$> elapsed) ++ Raises :: rest)
  = Err WorkloadFailure.
Proof.
  intros Hc Hpos. unfold run_benchmark_method.
  assert (0 < hist_len ctx) as Hl by (rewrite hist_len_eq; lia).
  rewrite np_zeros_ok by lia. cbn [bind].
  rewrite measured_phase_app.
  set (st0 := RawResult 0 _ Inf 0).
  destruct (measured_phase_spec elapsed st0) as (h & Hrun & _); [|done|].
  { unfold st0. cbn [t_latency_stats]. rewrite length_replicate. lia. }
  subst st0. cbn [t_latency_stats] in Hrun. by rewrite Hrun.
Qed.

(** A list of possible call outcomes either returns throughout or has a
    first call that raises. *)
Lemma calls_split calls :
  Forall call_ok calls ->
  (exists elapsed, calls = Returns <$> elapsed
     /\ Forall (fun d => 0 <= d) elapsed /\ Raises ∉ calls)
  \/ (exists elapsed rest, calls = (Returns <$> elapsed) ++ Raises :: rest
        /\ Forall (fun d => 0 <= d) elapsed).
Proof.
  induction 1 as [|c calls Hc _ IH].
  - left. exists []. split; [done|]. split; [done|]. apply not_elem_of_nil.
  - destruct c as [d|].
    + destruct IH as [(elapsed & -> & Hpos & Hno)|(elapsed & rest & -> & Hpos)].
      * left. exists (d :: elapsed). split; [done|]. split; [by constructor|].
        intros [?|?]%elem_of_cons; [done|by apply Hno].
      * right. exists (d :: elapsed), rest. split; [done|]. by constructor.
    + right. by exists [], calls.
Qed.

Lemma list_eq_lookup_total (h1 h2 : list Z) :
  length h1 = length h2 ->
  (forall i, (i < length h1)%nat -> h1 !!! i = h2 !!! i) ->
  h1 = h2.
Proof.
  intros Hlen Heq. apply list_eq. intros i.
  destruct (decide (i < length h1)%nat) as [Hi|Hi].
  - destruct (lookup_lt_is_Some_2 h1 i Hi) as [x Hx].
    destruct (lookup_lt_is_Some_2 h2 i ltac:(lia)) as [y Hy].
    specialize (Heq i Hi).
    rewrite (list_lookup_total_correct _ _ _ Hx),
            (list_lookup_total_correct _ _ _ Hy) in Heq.
    by rewrite Hx, Hy, Heq.
  - by rewrite !lookup_ge_None_2 by lia.
Qed.

End worker_more.

(** X1. A worker whose calls all return counts every call once: [nqueries]
    is the number of measured calls, and bucket [i] of its histogram is the
    number of calls whose latency, clamped to the last bucket, is [i]. *)
Theorem X1_worker_histogram_counts_calls (ctx : Context) (elapsed : list Z) :
  0 <= timeout_ceil ctx ->
  Forall (fun d => 0 <= d) elapsed ->
  exists r, run_benchmark_method ctx (Returns <$> elapsed) = Ok r
    /\ t_nqueries r = Z.of_nat (length elapsed)
    /\ Z.of_nat (length (t_latency_stats r)) = hist_len ctx
    /\ forall i, (i < length (t_latency_stats r))%nat ->
         t_latency_stats r !!! i =
         Z.of_nat (length (filter
           (fun d => Z.min (d `div` 10000) (hist_len ctx - 1) = Z.of_nat i)
           elapsed)).
Proof.
  intros Hc Hpos.
  destruct (run_benchmark_method_spec ctx elapsed Hc Hpos)
    as (h & Hrun & Hlen & _ & Hbk).
  eexists. split; [exact Hrun|]. cbn [t_nqueries t_latency_stats].
  split; [done|]. split; [done|].
  intros i Hi. rewrite Hbk by done. unfold calls_in_bucket. do 2 f_equal.
  apply filter_ext_Forall. eapply Forall_impl; [exact Hpos|].
  intros d Hd. cbn beta.
  pose proof (bucket_of_range (hist_len ctx) d ltac:(lia) Hd) as Hb.
  unfold bucket_of, req_time_of in *. lia.
Qed.

(** Four calls under a timeout of one second, two of them in bucket 5. *)
Lemma X1_worker_histogram_counts_calls_witness :
  exists r,
    run_benchmark_method ctx_example
      (Returns <$> [50000; 59999; 70000; 2500000000]) = Ok r
    /\ t_nqueries r = 4
    /\ t_latency_stats r !!! 5%nat = 2.
Proof.
  destruct (X1_worker_histogram_counts_calls ctx_example
              [50000; 59999; 70000; 2500000000])
    as (r & Hrun & Hn & Hlen & Hbk).
  - simpl. lia.
  - repeat constructor; lia.
  - exists r. split; [exact Hrun|]. split; [exact Hn|].
    rewrite Hbk; [reflexivity|].
    change (hist_len ctx_example) with 100001 in Hlen. lia.
Defined.

(** X2. The [min_latency] of a worker is the smallest latency it measured,
    in units of 10 microseconds; it stays the infinite sentinel exactly when
    no call was measured. *)
Theorem X2_worker_min_latency_is_smallest (ctx : Context) (elapsed : list Z) :
  0 <= timeout_ceil ctx ->
  Forall (fun d => 0 <= d) elapsed ->
  exists r, run_benchmark_method ctx (Returns <$> elapsed) = Ok r
    /\ (elapsed = [] -> t_min_latency r = Inf)
    /\ (elapsed <> [] ->
          exists m, t_min_latency r = Fin m
            /\ m ∈ req_times elapsed
            /\ Forall (fun x => m <= x) (req_times elapsed)).
Proof.
  intros Hc Hpos.
  destruct (run_benchmark_method_spec ctx elapsed Hc Hpos) as (h & Hrun & _).
  eexists. split; [exact Hrun|]. cbn [t_min_latency]. split.
  - by intros ->.
  - intros Hne. apply foldr_lat_min_Fin. by destruct elapsed.
Qed.

(** Calls of 0.7, 0.5 and 0.9 ms: the minimum is 50 units. *)
Lemma X2_worker_min_latency_is_smallest_witness :
  exists r m,
    run_benchmark_method ctx_example (Returns <$> [700000; 500000; 900000]) = Ok r
    /\ t_min_latency r = Fin m
    /\ m ∈ req_times [700000; 500000; 900000].
Proof.
  destruct (X2_worker_min_latency_is_smallest ctx_example [700000; 500000; 900000])
    as (r & Hrun & _ & Hmin).
  - simpl. lia.
  - repeat constructor; lia.
  - destruct (Hmin ltac:(discriminate)) as (m & Hm & Hin & _).
    exists r, m. split; [exact Hrun|]. split; [exact Hm|exact Hin].
Defined.

(** X3. What a worker returns does not depend on the order in which the
    latencies occurred: two runs measuring the same latencies in different
    orders return the same count, histogram, minimum and maximum. *)
Theorem X3_worker_result_ignores_call_order
    (ctx : Context) (elapsed elapsed' : list Z) :
  0 <= timeout_ceil ctx ->
  Forall (fun d => 0 <= d) elapsed ->
  elapsed ≡ₚ elapsed' ->
  run_benchmark_method ctx (Returns <$> elapsed')
  = run_benchmark_method ctx (Returns <$> elapsed)
  /\ is_ok (run_benchmark_method ctx (Returns <$> elapsed)) = true.
Proof.
  intros Hc Hpos Hp.
  assert (Forall (fun d => 0 <= d) elapsed') as Hpos' by (by rewrite <- Hp).
  destruct (run_benchmark_method_spec ctx elapsed Hc Hpos)
    as (h & Hrun & Hlen & _ & Hbk).
  destruct (run_benchmark_method_spec ctx elapsed' Hc Hpos')
    as (h' & Hrun' & Hlen' & _ & Hbk').
  rewrite Hrun, Hrun'. split; [|done]. f_equal.
  assert (h' = h) as ->.
  { apply list_eq_lookup_total; [lia|]. intros i Hi.
    rewrite Hbk, Hbk' by lia. symmetry. by apply calls_in_bucket_perm. }
  f_equal.
  - by rewrite Hp.
  - apply foldr_lat_min_perm. by rewrite Hp.
  - apply foldr_max_perm. by rewrite Hp.
Qed.

(** The same three latencies in two orders. *)
Lemma X3_worker_result_ignores_call_order_witness :
  run_benchmark_method ctx_example (Returns <$> [70000; 50000; 90000])
  = run_benchmark_method ctx_example (Returns <$> [50000; 70000; 90000]).
Proof.
  apply (X3_worker_result_ignores_call_order ctx_example
           [50000; 70000; 90000] [70000; 50000; 90000]).
  - simpl. lia.
  - repeat constructor; lia.
  - apply perm_swap.
Defined.

(** X4. A measured call that raises ends the worker with that failure: no
    result is returned, whatever was measured before and whatever calls
    would have followed. *)
Theorem X4_worker_call_failure_is_fatal
    (ctx : Context) (elapsed : list Z) (rest : list call) :
  0 <= timeout_ceil ctx ->
  Forall (fun d => 0 <= d) elapsed ->
  run_benchmark_method ctx ((Returns <$> elapsed) ++ Raises :: rest)
  = Err WorkloadFailure.
Proof. apply run_benchmark_method_Raises. Qed.

(** Two calls return, the third raises, a fourth is never made. *)
Lemma X4_worker_call_failure_is_fatal_witness :
  run_benchmark_method ctx_example
    ((Returns <$> [50000; 70000]) ++ Raises :: [Returns 60000])
  = Err WorkloadFailure.
Proof.
  apply (X4_worker_call_failure_is_fatal ctx_example [50000; 70000] [Returns 60000]).
  - simpl. lia.
  - repeat constructor; lia.
Defined.

(** X5. The timeout decides the histogram before any call is made.  With
    [ceil(timeout) < 0] the worker raises numpy's [ValueError] for a negative
    size, whatever the calls.  With [ceil(timeout) = 0] the histogram has a
    single bucket, which holds the count of all calls. *)
Theorem X5_worker_timeout_edge_cases
    (ctx : Context) (calls : list call) (elapsed : list Z) :
  (timeout_ceil ctx < 0 ->
     run_benchmark_method ctx calls = Err ValueError_negative_dimensions)
  /\ (timeout_ceil ctx = 0 -> Forall (fun d => 0 <= d) elapsed ->
        exists r, run_benchmark_method ctx (Returns <$> elapsed) = Ok r
          /\ t_latency_stats r = [Z.of_nat (length elapsed)]
          /\ t_nqueries r = Z.of_nat (length elapsed)).
Proof.
  split.
  - intros Hc. unfold run_benchmark_method, np_zeros.
    assert ((hist_len ctx <? 0) = true) as ->; [|done].
    apply Z.ltb_lt. rewrite hist_len_eq. lia.
  - intros Hc Hpos.
    destruct (run_benchmark_method_spec ctx elapsed ltac:(lia) Hpos)
      as (h & Hrun & Hlen & Hsum & _).
    eexists. split; [exact Hrun|]. cbn [t_latency_stats t_nqueries].
    split; [|done].
    rewrite hist_len_eq, Hc in Hlen.
    destruct h as [|x [|y h]]; simpl in Hlen; try lia.
    rewrite hist_sum_cons in Hsum. change (hist_sum []) with 0 in Hsum.
    f_equal. lia.
Qed.

(** A timeout of -2 seconds, and a timeout of 0 with three calls. *)
Lemma X5_worker_timeout_edge_cases_witness :
  run_benchmark_method (MkContext 4 10 (-2) ["get_user"%string])
    [Returns 50000] = Err ValueError_negative_dimensions
  /\ exists r,
       run_benchmark_method (MkContext 4 10 0 ["get_user"%string])
         (Returns <$> [50000; 70000; 2500000000]) = Ok r
       /\ t_latency_stats r = [3].
Proof.
  split.
  - apply (X5_worker_timeout_edge_cases (MkContext 4 10 (-2) ["get_user"%string])
             [Returns 50000] []). simpl. lia.
  - destruct (proj2 (X5_worker_timeout_edge_cases
                       (MkContext 4 10 0 ["get_user"%string]) []
                       [50000; 70000; 2500000000]))
      as (r & Hrun & Hh & _).
    + reflexivity.
    + repeat constructor; lia.
    + exists r. split; [exact Hrun|exact Hh].
Defined.

(** ** Aggregation, bucket by bucket *)

Section agg_more.
Implicit Types (st s : agg_state) (r : raw_result) (rs : list raw_result).

Lemma lookup_total_zip_add (a b : list Z) (i : nat) :
  length a = length b -> (i < length a)%nat ->
  zip_with Z.add a b !!! i = a !!! i + b !!! i.
Proof.
  intros Hl Hi.
  destruct (lookup_lt_is_Some_2 a i Hi) as [x Hx].
  destruct (lookup_lt_is_Some_2 b i ltac:(lia)) as [y Hy].
  rewrite (list_lookup_total_correct _ _ _ Hx), (list_lookup_total_correct _ _ _ Hy).
  apply list_lookup_total_correct. by rewrite lookup_zip_with, Hx; simpl; rewrite Hy.
Qed.

Lemma bucket_total_cons i r rs :
  bucket_total i (r :: rs) = t_latency_stats r !!! i + bucket_total i rs.
Proof. done. Qed.

(** From a state holding a histogram of length [L], the loop over histograms
    of length [L] adds every bucket of every result. *)
Lemma agg_loop_buckets (L : nat) rs : forall st h0,
  a_latency_stats st = Some h0 -> length h0 = L ->
  Forall (fun r => length (t_latency_stats r) = L) rs ->
  exists s h, agg_loop st rs = Ok s /\ a_latency_stats s = Some h
    /\ length h = L
    /\ forall i, (i < L)%nat -> h !!! i = h0 !!! i + bucket_total i rs.
Proof.
  induction rs as [|r rs IH]; intros st h0 Hh0 Hl0 Hrs; cbn [agg_loop].
  - exists st, h0. split; [done|]. split; [done|]. split; [done|].
    intros i _. unfold bucket_total. simpl. lia.
  - apply Forall_cons in Hrs as [Hr Hrs].
    rewrite agg_step_eq, Hh0. cbn [merge_hist].
    rewrite np_add_same_length by lia. cbn [bind].
    match goal with
    | |- context [agg_loop ?s1 rs] =>
        destruct (IH s1 (zip_with Z.add h0 (t_latency_stats r)))
          as (s & h & Hs & Hh & Hl & Hbk);
          [done|rewrite length_zip_with; lia|done|]
    end.
    exists s, h. split; [exact Hs|]. split; [done|]. split; [done|].
    intros i Hi. rewrite Hbk, lookup_total_zip_add, bucket_total_cons by lia. lia.
Qed.

Lemma agg_results_names rs b q d R :
  agg_results rs b q d = Ok R ->
  benchmark R = b /\ queryname R = q /\ duration R = d
  /\ nqueries R = sum_counts rs.
Proof.
  intros (s & Hs & ->)%agg_results_Ok. cbn.
  destruct (agg_loop_fields _ _ _ Hs) as (Hn & _). simpl in Hn.
  split; [done|]. split; [done|]. split; [done|lia].
Qed.

(** Aggregation of a non-empty collection of histograms of one length. *)
Lemma agg_results_buckets (L : nat) rs b q d :
  rs <> [] ->
  Forall (fun r => length (t_latency_stats r) = L) rs ->
  exists R h, agg_results rs b q d = Ok R
    /\ latency_stats R = Some h
    /\ length h = L
    /\ forall i, (i < L)%nat -> h !!! i = bucket_total i rs.
Proof.
  intros Hne Hlen. destruct rs as [|r rs]; [done|].
  apply Forall_cons in Hlen as [Hr Hrs].
  destruct (agg_loop_buckets L rs
              (AggState (lat_min (t_min_latency r) Inf) (Z.max (t_max_latency r) 0)
                 (0 + t_nqueries r) (Some (t_latency_stats r))) (t_latency_stats r))
    as (s & h & Hs & Hh & Hl & Hbk); [done|done|done|].
  eexists _, h. split.
  - apply agg_results_Ok. exists s. split; [|done].
    cbn [agg_loop]. rewrite agg_step_eq. exact Hs.
  - cbn [latency_stats]. split; [done|]. split; [done|].
    intros i Hi. by rewrite Hbk, bucket_total_cons.
Qed.

Lemma zip_add_zeros (h : list Z) :
  zip_with Z.add (replicate (length h) 0) h = h.
Proof. induction h as [|x h IH]; [done|]. simpl. by rewrite IH. Qed.

End agg_more.

(** X6. The histogram of an aggregated [Result] is the bucket-by-bucket sum
    over all the workers, for counters in the range where [float64] adds
    exactly (not negative, at most 2^53 over all workers and buckets): for
    histograms of one length [L] it has length [L], its bucket [i] is the sum
    of the workers' buckets [i], and that sum is in the exact range. *)
Theorem X6_aggregated_histogram_is_bucketwise_sum
    (L : nat) (rs : list raw_result) (benchname queryname : string) (duration : Z) :
  rs <> [] ->
  Forall (fun r => length (t_latency_stats r) = L) rs ->
  counters_exact rs ->
  exists R h, agg_results rs benchname queryname duration = Ok R
    /\ latency_stats R = Some h
    /\ length h = L
    /\ forall i, (i < L)%nat ->
         h !!! i = bucket_total i rs /\ 0 <= bucket_total i rs <= 2 ^ 53.
Proof.
  intros Hne Hlen Hexact.
  destruct (agg_results_buckets L rs benchname queryname duration Hne Hlen)
    as (R & h & HR & Hh & HL & Hbk).
  exists R, h. split; [done|]. split; [done|]. split; [done|].
  intros i Hi. split; [by apply Hbk|]. rewrite <- (Hbk i Hi).
  pose proof (agg_results_range rs benchname queryname duration R h Hexact HR Hh)
    as Hr.
  apply (proj1 (Forall_lookup _ _) Hr i).
  apply list_lookup_lookup_total_lt. lia.
Qed.

(** Three workers, three buckets. *)
Lemma X6_aggregated_histogram_is_bucketwise_sum_witness :
  exists R h,
    agg_results [RawResult 2 [1; 0; 1] (Fin 0) 2;
                 RawResult 0 [0; 0; 0] Inf 0;
                 RawResult 3 [0; 2; 1] (Fin 1) 7] "edgedb" "get_user" 10 = Ok R
    /\ latency_stats R = Some h
    /\ h !!! 2%nat = 2.
Proof.
  destruct (X6_aggregated_histogram_is_bucketwise_sum 3
              [RawResult 2 [1; 0; 1] (Fin 0) 2;
               RawResult 0 [0; 0; 0] Inf 0;
               RawResult 3 [0; 2; 1] (Fin 1) 7] "edgedb" "get_user" 10)
    as (R & h & HR & Hh & _ & Hbk).
  - discriminate.
  - repeat constructor.
  - split; [repeat constructor; lia|]. vm_compute. discriminate.
  - exists R, h. split; [exact HR|]. split; [exact Hh|].
    rewrite (proj1 (Hbk 2%nat ltac:(lia))). reflexivity.
Defined.

(** X7. A worker that measured nothing is neutral for the whole [Result]:
    adding, anywhere in a non-empty collection, a result with count 0, an
    all-zero histogram of the common length and the sentinels changes
    neither the histogram nor the count, minimum or maximum. *)
Theorem X7_idle_worker_is_neutral
    (L : nat) (rs1 rs2 : list raw_result)
    (benchname queryname : string) (duration : Z) :
  rs1 ++ rs2 <> [] ->
  Forall (fun r => length (t_latency_stats r) = L) (rs1 ++ rs2) ->
  agg_results (rs1 ++ RawResult 0 (replicate L 0) Inf 0 :: rs2)
    benchname queryname duration
  = agg_results (rs1 ++ rs2) benchname queryname duration.
Proof.
  intros Hne Hlen. unfold agg_results. f_equal.
  rewrite (agg_loop_perm _ (rs1 ++ _ :: rs2)
             (RawResult 0 (replicate L 0) Inf 0 :: rs1 ++ rs2))
    by (symmetry; apply Permutation_middle).
  destruct (rs1 ++ rs2) as [|r rs]; [done|].
  apply Forall_cons in Hlen as [Hr _].
  cbn [agg_loop]. rewrite !agg_step_eq.
  cbn [bind merge_hist agg_init a_latency_stats a_min_latency a_max_latency
       a_nqueries t_latency_stats t_min_latency t_max_latency t_nqueries].
  rewrite agg_step_eq.
  cbn [bind merge_hist a_latency_stats a_min_latency a_max_latency a_nqueries].
  rewrite np_add_same_length by (rewrite length_replicate; lia).
  rewrite <- Hr, zip_add_zeros. cbn [bind].
  rewrite !lat_min_Inf_r. by rewrite Z.max_id, Z.add_0_l.
Qed.

(** An idle worker between two busy ones. *)
Lemma X7_idle_worker_is_neutral_witness :
  agg_results [RawResult 2 [1; 0; 1] (Fin 0) 2;
               RawResult 0 (replicate 3 0) Inf 0;
               RawResult 3 [0; 2; 1] (Fin 1) 7] "edgedb" "get_user" 10
  = agg_results [RawResult 2 [1; 0; 1] (Fin 0) 2;
                 RawResult 3 [0; 2; 1] (Fin 1) 7] "edgedb" "get_user" 10.
Proof.
  apply (X7_idle_worker_is_neutral 3 [RawResult 2 [1; 0; 1] (Fin 0) 2]
           [RawResult 3 [0; 2; 1] (Fin 1) 7]).
  - discriminate.
  - repeat constructor.
Defined.

(** ** The dispatchers *)

Section dispatch_more.
Implicit Types (ctx : Context) (w : World) (r : raw_result) (rs : list raw_result).

Lemma collect_Err {A} (E : exn) (ms : list (result A)) :
  Forall (fun m => is_ok m = true \/ m = Err E) ms ->
  Exists (fun m => m = Err E) ms ->
  collect ms = Err E.
Proof.
  induction 1 as [|m ms Hm Hms IH]; intros Hex; [by apply Exists_nil in Hex|].
  apply Exists_cons in Hex. cbn [collect].
  destruct m as [a|e]; cbn [bind].
  - destruct Hex as [?|Hex]; [done|]. by rewrite (IH Hex).
  - destruct Hm as [?|[= ->]]; done.
Qed.

Lemma collect_fmap_Forall2 {A B} (f : B -> result A) (P : B -> A -> Prop)
    (xs : list B) :
  (forall x, x ∈ xs -> exists a, f x = Ok a /\ P x a) ->
  exists l, collect (f <$> xs) = Ok l /\ Forall2 P xs l.
Proof.
  induction xs as [|x xs IH]; intros H.
  - exists []. split; [done|constructor].
  - destruct (H x ltac:(by left)) as (a & Ha & HP).
    destruct IH as (l & Hl & HF); [intros y Hy; apply H; by right|].
    exists (a :: l). rewrite fmap_cons. cbn [collect]. rewrite Ha, Hl.
    split; [done|by constructor].
Qed.

(** The outcome of a worker on possible call outcomes. *)
Lemma run_benchmark_method_outcome ctx (calls : list call) :
  0 <= timeout_ceil ctx -> Forall call_ok calls ->
  (Raises ∈ calls -> run_benchmark_method ctx calls = Err WorkloadFailure)
  /\ (is_ok (run_benchmark_method ctx calls) = true
      \/ run_benchmark_method ctx calls = Err WorkloadFailure).
Proof.
  intros Hc Hok.
  destruct (calls_split calls Hok)
    as [(elapsed & -> & Hpos & Hno)|(elapsed & rest & -> & Hpos)].
  - split; [done|]. left.
    destruct (run_benchmark_method_ok ctx elapsed Hc Hpos) as (r & -> & _). done.
  - split; [intros _|right]; by apply run_benchmark_method_Raises.
Qed.

Lemma sum_over_workers_Forall2 (f : nat -> Z) (g : raw_result -> Z)
    (xs : list nat) rs :
  Forall2 (fun i r => g r = f i) xs rs ->
  foldr Z.add 0 (g <$> rs) = foldr Z.add 0 (f <$> xs).
Proof.
  induction 1 as [|i r xs rs Hir _ IH]; [done|].
  rewrite !fmap_cons. cbn [foldr]. by rewrite Hir, IH.
Qed.

(** The workers of a dispatch whose calls all return, one by one. *)
Lemma run_benchmark_workers_spec ctx w q (elapsed_of : nat -> list Z) :
  0 <= timeout_ceil ctx ->
  (forall i, (i < Z.to_nat (concurrency ctx))%nat ->
     measured_calls w q i = Returns <$> elapsed_of i
     /\ Forall (fun d => 0 <= d) (elapsed_of i)) ->
  exists rs,
    collect ((fun i => run_benchmark_method ctx (measured_calls w q i))
               <$> seq 0 (Z.to_nat (concurrency ctx))) = Ok rs
    /\ Forall2 (fun i r =>
         t_nqueries r = Z.of_nat (length (elapsed_of i))
         /\ length (t_latency_stats r) = Z.to_nat (hist_len ctx)
         /\ forall j, (j < Z.to_nat (hist_len ctx))%nat ->
              t_latency_stats r !!! j
              = calls_in_bucket (hist_len ctx) j (elapsed_of i))
         (seq 0 (Z.to_nat (concurrency ctx))) rs.
Proof.
  intros Hc Hw. apply collect_fmap_Forall2.
  intros i Hi. apply elem_of_seq in Hi.
  destruct (Hw i ltac:(lia)) as [-> Hpos].
  destruct (run_benchmark_method_spec ctx (elapsed_of i) Hc Hpos)
    as (h & Hrun & Hlen & _ & Hbk).
  eexists. split; [exact Hrun|]. cbn [t_nqueries t_latency_stats].
  split; [done|]. split; [lia|]. intros j Hj. apply Hbk. lia.
Qed.

End dispatch_more.

(** X8. A dispatch in which some worker has a call that raises produces no
    [Result]: both dispatchers raise the workload failure, whatever the
    other workers measured. *)
Theorem X8_dispatch_fails_when_a_worker_fails
    (ctx : Context) (w : World) (benchname : string) (duration : Z)
    (queryname : string) (k : nat) :
  0 <= timeout_ceil ctx ->
  (forall i, (i < Z.to_nat (concurrency ctx))%nat ->
     Forall call_ok (measured_calls w queryname i)) ->
  (k < Z.to_nat (concurrency ctx))%nat ->
  Raises ∈ measured_calls w queryname k ->
  run_benchmark_sync ctx w benchname duration queryname = Err WorkloadFailure
  /\ run_benchmark_async ctx w benchname duration queryname = Err WorkloadFailure.
Proof.
  intros Hc Hok Hk Hraise.
  assert (collect ((fun i => run_benchmark_method ctx (measured_calls w queryname i))
                     <$> seq 0 (Z.to_nat (concurrency ctx))) = Err WorkloadFailure)
    as Hcollect.
  { apply collect_Err.
    - apply Forall_fmap, Forall_forall. intros i Hi. apply elem_of_seq in Hi.
      cbn [compose].
      apply run_benchmark_method_outcome; [done|]. apply Hok. lia.
    - apply Exists_fmap, Exists_exists. exists k. split.
      + apply elem_of_seq. lia.
      + cbn [compose]. apply run_benchmark_method_outcome; auto. }
  unfold run_benchmark_sync, run_benchmark_async. rewrite Hcollect.
  rewrite (proj2 (Z.leb_gt (concurrency ctx) 0)) by lia. done.
Qed.

(** Four workers; the third one meets a failure at its second call. *)
Lemma X8_dispatch_fails_when_a_worker_fails_witness :
  run_benchmark_sync ctx_example
    (MkWorld (fun _ i => if decide (i = 2%nat) then [Returns 50000; Raises]
                         else [Returns 60000])
       (fun _ => false))
    "edgedb" 10 "get_user" = Err WorkloadFailure.
Proof.
  destruct (X8_dispatch_fails_when_a_worker_fails ctx_example
              (MkWorld (fun _ i => if decide (i = 2%nat) then [Returns 50000; Raises]
                                   else [Returns 60000])
                 (fun _ => false))
              "edgedb" 10 "get_user" 2) as [Hsync _].
  - simpl. lia.
  - intros i _. cbn [measured_calls].
    destruct (decide (i = 2%nat)); repeat constructor; simpl; lia.
  - simpl. lia.
  - cbn [measured_calls]. apply list_elem_of_further, list_elem_of_here.
  - exact Hsync.
Defined.

(** X9. The [Result] of a dispatch whose calls all return carries the names
    and the duration it was given, has as count the number of calls of all
    workers together, and has in bucket [j] of its histogram the number of
    calls of all workers whose clamped latency is [j]. *)
Theorem X9_dispatch_result_counts_all_calls
    (ctx : Context) (w : World) (b : string) (d : Z) (q : string)
    (elapsed_of : nat -> list Z) :
  0 <= timeout_ceil ctx ->
  0 < concurrency ctx ->
  (forall i, (i < Z.to_nat (concurrency ctx))%nat ->
     measured_calls w q i = Returns <$> elapsed_of i
     /\ Forall (fun x => 0 <= x) (elapsed_of i)) ->
  exists R h,
    run_benchmark_sync ctx w b d q = Ok R
    /\ benchmark R = b /\ queryname R = q /\ duration R = d
    /\ nqueries R =
       sum_over_workers (Z.to_nat (concurrency ctx))
         (fun i => Z.of_nat (length (elapsed_of i)))
    /\ latency_stats R = Some h
    /\ Z.of_nat (length h) = hist_len ctx
    /\ forall j, (j < length h)%nat ->
         h !!! j =
         sum_over_workers (Z.to_nat (concurrency ctx))
           (fun i => calls_in_bucket (hist_len ctx) j (elapsed_of i)).
Proof.
  intros Hc Hn Hw.
  destruct (run_benchmark_workers_spec ctx w q elapsed_of Hc Hw) as (rs & Hrs & HF).
  unfold run_benchmark_sync. rewrite (proj2 (Z.leb_gt (concurrency ctx) 0)) by lia.
  rewrite Hrs. cbn [bind].
  assert (0 < hist_len ctx) as HL by (rewrite hist_len_eq; lia).
  assert (rs <> []) as Hne.
  { intros ->. apply Forall2_length in HF. rewrite length_seq in HF.
    simpl in HF. lia. }
  assert (Forall (fun r => length (t_latency_stats r) = Z.to_nat (hist_len ctx)) rs)
    as Hlen.
  { clear -HF. induction HF as [|i r xs rs (_ & Hl & _) _ IH]; by constructor. }
  destruct (agg_results_buckets _ rs b q d Hne Hlen) as (R & h & HR & Hh & Hl & Hbk).
  destruct (agg_results_names _ _ _ _ _ HR) as (Hb & Hq & Hd & Hcount).
  exists R, h. split; [exact HR|]. split; [done|]. split; [done|]. split; [done|].
  split.
  { rewrite Hcount. unfold sum_counts, sum_over_workers.
    apply sum_over_workers_Forall2.
    eapply Forall2_impl; [exact HF|]. by intros i r (? & _). }
  split; [done|]. split; [lia|].
  intros j Hj. rewrite Hbk by lia. unfold bucket_total, sum_over_workers.
  apply (sum_over_workers_Forall2
           (fun i => calls_in_bucket (hist_len ctx) j (elapsed_of i))
           (fun r => t_latency_stats r !!! j)).
  eapply Forall2_impl; [exact HF|]. intros i r (_ & _ & Hr). apply Hr. lia.
Qed.

(** Two workers under a timeout of 0 seconds: five calls in all. *)
Lemma X9_dispatch_result_counts_all_calls_witness :
  exists R,
    run_benchmark_sync (MkContext 2 10 0 ["get_user"%string])
      (MkWorld (fun _ i => Returns <$> (if decide (i = 0%nat)
                                        then [50000; 70000] else [1; 2; 3]))
         (fun _ => false))
      "edgedb" 10 "get_user" = Ok R
    /\ nqueries R = 5.
Proof.
  destruct (X9_dispatch_result_counts_all_calls
              (MkContext 2 10 0 ["get_user"%string])
              (MkWorld (fun _ i => Returns <$> (if decide (i = 0%nat)
                                                then [50000; 70000] else [1; 2; 3]))
                 (fun _ => false))
              "edgedb" 10 "get_user"
              (fun i => if decide (i = 0%nat) then [50000; 70000] else [1; 2; 3]))
    as (R & h & HR & _ & _ & _ & Hn & _).
  - simpl. lia.
  - simpl. lia.
  - intros i _. cbn [measured_calls]. split; [reflexivity|].
    destruct (decide (i = 0%nat)); repeat constructor; lia.
  - exists R. split; [exact HR|]. rewrite Hn. reflexivity.
Defined.

(** ** The runners *)

Section runner_more.
Implicit Types (ctx : Context) (w : World) (qs : list string)
  (out : list event) (results : list Result).

Lemma run_benchmark_sync_healthy ctx w b q :
  0 <= timeout_ceil ctx -> 0 < concurrency ctx -> all_calls_return ctx w q ->
  exists R, run_benchmark_sync ctx w b (ctx_duration ctx) q = Ok R
    /\ healthy_Result ctx b q R.
Proof.
  intros Hc Hn Hw.
  destruct (run_benchmark_sync_workers ctx w b (ctx_duration ctx) q Hc Hn Hw)
    as (rs & -> & Hrs & Hlen).
  destruct (agg_results_count_ok _ rs b q (ctx_duration ctx)
              (worker_ok_same_length ctx rs Hrs)) as (R & HR & Hinv & _ & Hnone).
  { eapply Forall_impl; [exact Hrs|]. by intros r (_ & ? & _). }
  exists R. split; [exact HR|].
  destruct (agg_results_names _ _ _ _ _ HR) as (Hb & Hq & Hd & _).
  split; [done|]. split; [done|]. split; [done|].
  destruct (latency_stats R) as [h|] eqn:Hh; [by exists h|].
  rewrite (proj1 Hnone eq_refl) in Hlen. simpl in Hlen. lia.
Qed.

Lemma print_result_ok ctx w res out :
  stdout_broken w (queryname res) = false -> ctx_duration ctx <> 0 ->
  print_result ctx w res (out ++ [Dispatched (queryname res)])
  = (out ++ report_events ctx res, Ok ()).
Proof.
  intros Hout Hd. unfold print_result. rewrite Hout.
  rewrite (proj2 (Z.eqb_neq (ctx_duration ctx) 0)) by done.
  unfold report_events. by rewrite <- !app_assoc.
Qed.

(** The synchronous loop on healthy queries. *)
Lemma run_queries_healthy ctx w b qs : forall results out,
  0 <= timeout_ceil ctx -> 0 < concurrency ctx -> ctx_duration ctx <> 0 ->
  (forall q, q ∈ qs -> all_calls_return ctx w q /\ stdout_broken w q = false) ->
  exists new,
    run_queries ctx w b qs results out
    = (out ++ concat (report_events ctx <$> new), Ok (results ++ new))
    /\ Forall2 (healthy_Result ctx b) qs new.
Proof.
  induction qs as [|q qs IH]; intros results out Hc Hn Hd Hqs.
  - exists []. simpl. rewrite !app_nil_r. split; [done|constructor].
  - destruct (Hqs q ltac:(by left)) as [Hw Hout].
    destruct (run_benchmark_sync_healthy ctx w b q Hc Hn Hw) as (R & HR & HRok).
    cbn [run_queries]. rewrite HR. cbv zeta.
    pose proof HRok as (_ & Hq & _). subst q.
    rewrite print_result_ok by done.
    destruct (IH (results ++ [R]) (out ++ report_events ctx R) Hc Hn Hd)
      as (new & Hrun & Hnew); [intros q' Hq'; apply Hqs; by right|].
    exists (R :: new). rewrite Hrun. rewrite fmap_cons. cbn [concat].
    rewrite <- !app_assoc. split; [done|by constructor].
Qed.


End runner_more.

(** X11. A healthy synchronous run completes: with a positive concurrency, a
    non-zero duration, calls that all return and a working standard output,
    [run_sync] returns one [Result] per requested query, in the order of the
    request, each with the benchmark name, the query name, the configured
    duration and a count equal to the sum of its histogram; what is observed
    is, query after query, the dispatch followed by the six lines of the
    report. *)
Theorem X11_run_sync_completes (ctx : Context) (w : World) (b : string) :
  0 <= timeout_ceil ctx ->
  0 < concurrency ctx ->
  ctx_duration ctx <> 0 ->
  (forall q, q ∈ queries ctx ->
     all_calls_return ctx w q /\ stdout_broken w q = false) ->
  exists results,
    run_sync ctx w b = (concat (report_events ctx <$> results), Ok results)
    /\ Forall2 (healthy_Result ctx b) (queries ctx) results.
Proof.
  intros Hc Hn Hd Hqs.
  destruct (run_queries_healthy ctx w b (queries ctx) [] [] Hc Hn Hd Hqs)
    as (new & Hrun & Hnew).
  exists new. split; [exact Hrun|exact Hnew].
Qed.

(** One worker, two queries, two calls each, under a timeout of 0 seconds. *)
Lemma X11_run_sync_completes_witness :
  exists results,
    snd (run_sync (MkContext 1 10 0 ["get_user"; "get_movie"]%string)
           (MkWorld (fun _ _ => Returns <$> [50000; 70000]) (fun _ => false))
           "edgedb") = Ok results
    /\ length results = 2%nat.
Proof.
  destruct (X11_run_sync_completes
              (MkContext 1 10 0 ["get_user"; "get_movie"]%string)
              (MkWorld (fun _ _ => Returns <$> [50000; 70000]) (fun _ => false))
              "edgedb") as (results & Hrun & Hres).
  - simpl. lia.
  - simpl. lia.
  - simpl. lia.
  - intros q _. split; [|reflexivity].
    intros i _. exists [50000; 70000]. split; [reflexivity|].
    repeat constructor; lia.
  - exists results. split; [by rewrite Hrun|].
    apply Forall2_length in Hres. by rewrite <- Hres.
Defined.



(** ** The connection of a worker *)



(** ** The program: benchmarks and export *)

Section main_more.
Implicit Types (BENCHMARKS : gmap string bench_desc) (ctx : Context)
  (worlds : string -> World) (data : list (list Result)) (out : list event).

(** Benchmarks of another language leave no trace. *)
Lemma main_benchmarks_skip BENCHMARKS ctx worlds pre post data out :
  Forall (other_language BENCHMARKS) pre ->
  main_benchmarks BENCHMARKS ctx worlds (pre ++ post) data out
  = main_benchmarks BENCHMARKS ctx worlds post data out.
Proof.
  induction 1 as [|b pre (d & Hd & Hlang) _ IH]; [done|].
  cbn [app main_benchmarks]. rewrite Hd.
  by rewrite bool_decide_eq_true_2.
Qed.

Lemma json_results_iff (results : list Result) (js : list json_query) :
  json_results results = Returned js <-> Forall2 query_exported results js.
Proof.
  revert js. induction results as [|r results IH]; intros js; cbn [json_results].
  - split; [intros [= <-]; constructor|]. by intros ->%Forall2_nil_inv_l.
  - destruct (latency_stats r) as [h|] eqn:Hh.
    + destruct (json_results results) as [js'|e] eqn:Hjs; split.
      * intros [= <-]. constructor; [|by apply IH].
        unfold query_exported. by rewrite Hh.
      * intros (jq & js'' & (Hq & Hn & Hmn & Hmx & Hst) & HF & ->)%Forall2_cons_inv_l.
        apply IH in HF as [= <-]. rewrite Hh in Hst. injection Hst as ->.
        destruct jq; simpl in *. by subst.
      * done.
      * intros (jq & js'' & _ & HF & ->)%Forall2_cons_inv_l. by apply IH in HF.
    + split; [done|].
      intros (jq & js'' & (_ & _ & _ & _ & Hst) & _ & ->)%Forall2_cons_inv_l.
      by rewrite Hh in Hst.
Qed.

Lemma json_data_iff data (jd : list json_benchmark) :
  json_data data = Returned jd <-> Forall2 benchmark_exported data jd.
Proof.
  revert jd. induction data as [|results data IH]; intros jd; cbn [json_data].
  - split; [intros [= <-]; constructor|]. by intros ->%Forall2_nil_inv_l.
  - destruct (json_results results) as [js|e] eqn:Hjs.
    + destruct results as [|r0 rest].
      * split; [done|].
        intros (jb & jd' & ((r & rest' & ? & _) & _) & _ & ->)%Forall2_cons_inv_l.
        done.
      * destruct (json_data data) as [jd'|e] eqn:Hjd; split.
        -- intros [= <-]. constructor; [|by apply IH]. split.
           ++ by exists r0, rest.
           ++ by apply json_results_iff.
        -- intros (jb & jd'' & ((r & rest' & [= <- <-] & Hb & Hd) & Hq)
                    & HF & ->)%Forall2_cons_inv_l.
           apply IH in HF as [= <-]. apply json_results_iff in Hq.
           rewrite Hjs in Hq. injection Hq as ->.
           destruct jb; simpl in *. by subst.
        -- done.
        -- intros (jb & jd'' & _ & HF & ->)%Forall2_cons_inv_l. by apply IH in HF.
    + split; [done|].
      intros (jb & jd' & (_ & Hq) & _ & ->)%Forall2_cons_inv_l.
      apply json_results_iff in Hq. by rewrite Hjs in Hq.
Qed.

Lemma json_results_total (results : list Result) :
  Forall (fun r => is_Some (latency_stats r)) results ->
  exists js, json_results results = Returned js.
Proof.
  induction 1 as [|r results [h Hh] _ (js & Hjs)]; [by exists []|].
  cbn [json_results]. rewrite Hh, Hjs. eauto.
Qed.

Lemma json_results_AttributeError (results : list Result) :
  Exists (fun r => latency_stats r = None) results ->
  json_results results = Raised AttributeError.
Proof.
  induction results as [|r results IH]; [by intros ?%Exists_nil|].
  intros Hex. cbn [json_results].
  destruct (latency_stats r) as [h|] eqn:Hh; [|done].
  apply Exists_cons in Hex as [?|Hex]; [congruence|]. by rewrite IH.
Qed.

Lemma json_data_total data :
  Forall exportable data -> exists jd, json_data data = Returned jd.
Proof.
  induction 1 as [|results data [Hne Hsome] _ (jd & Hjd)]; [by exists []|].
  cbn [json_data].
  destruct (json_results_total results Hsome) as (js & ->).
  destruct results as [|r0 rest]; [done|]. rewrite Hjd. eauto.
Qed.

Lemma json_data_app_exportable pre data :
  Forall exportable pre ->
  forall e, json_data data = Raised e -> json_data (pre ++ data) = Raised e.
Proof.
  induction 1 as [|results pre [Hne Hsome] _ IH]; intros e He; [done|].
  cbn [app json_data].
  destruct (json_results_total results Hsome) as (js & ->).
  destruct results as [|r0 rest]; [done|]. by rewrite (IH e He).
Qed.

End main_more.

(** X14. [main] runs only the Python benchmarks.  A benchmark of another
    language is passed over without a dispatch, a line of output or an entry
    in the data; a name that [_shared.BENCHMARKS] does not know ends the
    program with [KeyError], also when only benchmarks of other languages
    came before it. *)
Theorem X14_main_passes_over_other_languages
    (BENCHMARKS : gmap string bench_desc) (ctx : Context)
    (worlds : string -> World) (pre : list string)
    (data : list (list Result)) (out : list event) :
  Forall (other_language BENCHMARKS) pre ->
  main_benchmarks BENCHMARKS ctx worlds pre data out = (out, Returned data)
  /\ (forall post,
        main_benchmarks BENCHMARKS ctx worlds (pre ++ post) data out
        = main_benchmarks BENCHMARKS ctx worlds post data out)
  /\ (forall b post, BENCHMARKS !! b = None ->
        main_benchmarks BENCHMARKS ctx worlds (pre ++ b :: post) data out
        = (out, Raised (KeyError b))).
Proof.
  intros Hpre. split; [|split].
  - rewrite <- (app_nil_r pre). by rewrite main_benchmarks_skip.
  - intros post. by apply main_benchmarks_skip.
  - intros b post Hb. rewrite main_benchmarks_skip by done.
    cbn [main_benchmarks]. by rewrite Hb.
Qed.

(** A table with a Go benchmark and a JavaScript benchmark; a third name is
    unknown. *)
Lemma X14_main_passes_over_other_languages_witness :
  main_benchmarks
    (<["golang_pgx" := MkBenchDesc "go" false]>
       (<["typeorm" := MkBenchDesc "js" false]> ∅))
    ctx_example (fun _ => MkWorld (fun _ _ => []) (fun _ => false))
    (["golang_pgx"%string; "typeorm"%string]
       ++ "nosuch"%string :: ["golang_pgx"%string]) [] []
  = ([], Raised (KeyError "nosuch")).
Proof.
  apply (X14_main_passes_over_other_languages
           (<["golang_pgx" := MkBenchDesc "go" false]>
              (<["typeorm" := MkBenchDesc "js" false]> ∅))
           ctx_example (fun _ => MkWorld (fun _ _ => []) (fun _ => false))
           ["golang_pgx"; "typeorm"]%string [] []).
  - repeat constructor.
    + exists (MkBenchDesc "go" false). split; [reflexivity|discriminate].
    + exists (MkBenchDesc "js" false). split; [reflexivity|discriminate].
  - reflexivity.
Defined.

(** X15. The JSON data holds the results unchanged.  The export returns
    exactly the data in which every benchmark carries the benchmark name and
    the duration of its first result, and its queries, in the order of the
    results, carry the query name, count, minimum, maximum and histogram of
    each [Result].  It returns at all exactly when every benchmark has at
    least one result and every result has a histogram. *)
Theorem X15_json_data_keeps_results (data : list (list Result)) :
  (forall jd, json_data data = Returned jd <-> Forall2 benchmark_exported data jd)
  /\ ((exists jd, json_data data = Returned jd) <-> Forall exportable data).
Proof.
  split; [apply json_data_iff|]. split; [|apply json_data_total].
  intros (jd & HF%json_data_iff).
  induction HF as [|results jb data' jd' ((r0 & rest & -> & _) & Hq) _ IH];
    constructor; [|done].
  split; [done|]. clear -Hq.
  induction Hq as [|r jq rs js (_ & _ & _ & _ & Hst) _ IH]; constructor; eauto.
Qed.

(** One benchmark with one result. *)
Lemma X15_json_data_keeps_results_witness :
  json_data [[MkResult "edgedb" "get_user" 3 10 (Fin 1) 7 (Some [0; 2; 1])]]
  = Returned [MkJsonBenchmark "edgedb" 10
                [MkJsonQuery "get_user" 3 (Fin 1) 7 [0; 2; 1]]].
Proof.
  apply (X15_json_data_keeps_results
           [[MkResult "edgedb" "get_user" 3 10 (Fin 1) 7 (Some [0; 2; 1])]]).
  repeat constructor. by eexists _, _.
Defined.

(** X16. What the export cannot write.  After benchmarks that can be
    exported, a benchmark without any result ends the export with
    [IndexError] (the read of [results[0]]), and a benchmark with a result
    that has no histogram ends it with [AttributeError]; nothing is
    exported. *)
Theorem X16_json_data_failures
    (pre : list (list Result)) (results : list Result) (post : list (list Result)) :
  Forall exportable pre ->
  (results = [] -> json_data (pre ++ results :: post) = Raised (Exn IndexError))
  /\ (Exists (fun r => latency_stats r = None) results ->
        json_data (pre ++ results :: post) = Raised AttributeError).
Proof.
  intros Hpre. split.
  - intros ->. by apply json_data_app_exportable.
  - intros Hex. apply json_data_app_exportable; [done|].
    cbn [json_data]. by rewrite json_results_AttributeError.
Qed.

(** The results of an asynchronous run without workers cannot be exported. *)
Lemma X16_json_data_failures_witness :
  json_data [[MkResult "edgedb" "get_user" 3 10 (Fin 1) 7 (Some [0; 2; 1])];
             [empty_Result "asyncpg" "get_user" 10]]
  = Raised AttributeError.
Proof.
  apply (X16_json_data_failures
           [[MkResult "edgedb" "get_user" 3 10 (Fin 1) 7 (Some [0; 2; 1])]]
           [empty_Result "asyncpg" "get_user" 10] []).
  - repeat constructor; [discriminate|by eexists].
  - repeat constructor.
Defined.

Section program_more.
Implicit Types (BENCHMARKS : gmap string bench_desc) (ctx : Context)
  (worlds : string -> World) (w : World).

(** With workers, the two runners are the same loop. *)
Lemma run_async_queries_sync ctx w b qs : forall results out,
  0 < concurrency ctx ->
  run_async_queries ctx w b qs results out = run_queries ctx w b qs results out.
Proof.
  induction qs as [|q qs IH]; intros results out Hn; [done|].
  cbn [run_async_queries run_queries].
  assert (run_benchmark_async ctx w b (ctx_duration ctx) q
          = run_benchmark_sync ctx w b (ctx_duration ctx) q) as ->.
  { unfold run_benchmark_sync, run_benchmark_async.
    by rewrite (proj2 (Z.leb_gt (concurrency ctx) 0)) by lia. }
  destruct (run_benchmark_sync ctx w b (ctx_duration ctx) q) as [res|e]; [|done].
  destruct (print_result ctx w res (out ++ [Dispatched q])) as [out2 [[]|e]];
    [by apply IH|done].
Qed.

(** [main] on one Python benchmark among benchmarks of other languages. *)
Lemma main_benchmarks_one BENCHMARKS ctx worlds pre b post d :
  Forall (other_language BENCHMARKS) pre ->
  Forall (other_language BENCHMARKS) post ->
  BENCHMARKS !! b = Some d -> language d = "python"%string ->
  main_benchmarks BENCHMARKS ctx worlds (pre ++ b :: post) [] []
  = match run_bench BENCHMARKS ctx (worlds b) b with
    | (out, Raised e) => (out, Raised e)
    | (out, Returned res) => (out, Returned [res])
    end.
Proof.
  intros Hpre Hpost Hb Hlang. rewrite main_benchmarks_skip by done.
  cbn [main_benchmarks]. rewrite Hb.
  rewrite bool_decide_eq_false_2 by (intros Hne; by apply Hne).
  destruct (run_bench BENCHMARKS ctx (worlds b) b) as [out [res|e]]; [|done].
  rewrite <- (app_nil_r post), main_benchmarks_skip by done. done.
Qed.

(** Exported queries of healthy results: the requested names in order, and
    counts that are the sums of the exported histograms. *)
Lemma exported_healthy ctx b (qs : list string) (results : list Result)
    (js : list json_query) :
  Forall2 (healthy_Result ctx b) qs results ->
  Forall2 query_exported results js ->
  jq_queryname <$> js = qs
  /\ Forall (fun jq => jq_nqueries jq = hist_sum (jq_latency_stats jq)) js.
Proof.
  intros Hres. revert js.
  induction Hres as [|q R qs rs (_ & Hq & _ & h & Hh & Hn) _ IH]; intros js Hjs.
  - apply Forall2_nil_inv_l in Hjs as ->. by split.
  - apply Forall2_cons_inv_l in Hjs as (jq & js' & (Hjq & Hjn & _ & _ & Hst) & Hjs & ->).
    destruct (IH js' Hjs) as (Hnames & Hcounts).
    rewrite fmap_cons, Hnames, Hjq, Hq. split; [done|].
    constructor; [|done]. rewrite Hh in Hst. injection Hst as ->. congruence.
Qed.

End program_more.

(** X17. A run without queries cannot be exported.  When no query is
    requested, a Python benchmark is run without any dispatch and yields an
    empty list of results; without JSON export [main] ends normally, and
    with it [main] ends with [IndexError]. *)
Theorem X17_main_without_queries
    (BENCHMARKS : gmap string bench_desc) (ctx : Context)
    (worlds : string -> World) (pre : list string) (b : string)
    (post : list string) (d : bench_desc) :
  Forall (other_language BENCHMARKS) pre ->
  Forall (other_language BENCHMARKS) post ->
  BENCHMARKS !! b = Some d ->
  language d = "python"%string ->
  queries ctx = [] ->
  main BENCHMARKS ctx worlds (pre ++ b :: post) false = ([], Returned None)
  /\ main BENCHMARKS ctx worlds (pre ++ b :: post) true
     = ([], Raised (Exn IndexError)).
Proof.
  intros Hpre Hpost Hb Hlang Hq. unfold main.
  rewrite (main_benchmarks_one _ _ _ _ _ _ d) by done.
  unfold run_bench. rewrite Hb. unfold run_async, run_sync. rewrite Hq.
  by destruct (ASYNC d).
Qed.

(** One Python benchmark, no query, JSON export requested. *)
Lemma X17_main_without_queries_witness :
  main (<["edgedb" := MkBenchDesc "python" false]> ∅)
    (MkContext 4 10 1 [])
    (fun _ => MkWorld (fun _ _ => []) (fun _ => false))
    ([] ++ "edgedb"%string :: []) true
  = ([], Raised (Exn IndexError)).
Proof.
  apply (X17_main_without_queries
           (<["edgedb" := MkBenchDesc "python" false]> ∅)
           (MkContext 4 10 1 [])
           (fun _ => MkWorld (fun _ _ => []) (fun _ => false))
           [] "edgedb" [] (MkBenchDesc "python" false)).
  - constructor.
  - constructor.
  - reflexivity.
  - reflexivity.
  - reflexivity.
Defined.

(** X18. The JSON data of a healthy run.  For a Python benchmark, run by
    either runner with a positive concurrency, a non-zero duration, calls
    that all return and a working standard output, and at least one query,
    [main] returns JSON data with one entry for the benchmark: its name, the
    configured duration, and the queries in the order of the request, each
    with a count equal to the sum of its exported histogram. *)
Theorem X18_main_exports_healthy_run
    (BENCHMARKS : gmap string bench_desc) (ctx : Context)
    (worlds : string -> World) (pre : list string) (b : string)
    (post : list string) (d : bench_desc) :
  Forall (other_language BENCHMARKS) pre ->
  Forall (other_language BENCHMARKS) post ->
  BENCHMARKS !! b = Some d ->
  language d = "python"%string ->
  0 <= timeout_ceil ctx ->
  0 < concurrency ctx ->
  ctx_duration ctx <> 0 ->
  queries ctx <> [] ->
  (forall q, q ∈ queries ctx ->
     all_calls_return ctx (worlds b) q /\ stdout_broken (worlds b) q = false) ->
  exists results jb,
    main BENCHMARKS ctx worlds (pre ++ b :: post) true
    = (concat (report_events ctx <$> results), Returned (Some [jb]))
    /\ jb_benchmark jb = b
    /\ jb_duration jb = ctx_duration ctx
    /\ jq_queryname <$> jb_queries jb = queries ctx
    /\ Forall (fun jq => jq_nqueries jq = hist_sum (jq_latency_stats jq))
         (jb_queries jb).
Proof.
  intros Hpre Hpost Hb Hlang Hc Hn Hd Hne Hqs.
  destruct (run_queries_healthy ctx (worlds b) b (queries ctx) [] [] Hc Hn Hd Hqs)
    as (results & Hrun & Hres).
  cbn [app] in Hrun.
  assert (run_bench BENCHMARKS ctx (worlds b) b
          = (concat (report_events ctx <$> results), Returned results)) as Hbench.
  { unfold run_bench. rewrite Hb. unfold run_async, run_sync.
    rewrite run_async_queries_sync by done. rewrite Hrun. by destruct (ASYNC d). }
  assert (exportable results) as Hexp.
  { split.
    - intros ->. apply Forall2_length in Hres. by destruct (queries ctx).
    - clear -Hres. induction Hres as [|q R qs rs (_ & _ & _ & h & Hh & _) _ IH];
        constructor; eauto. }
  destruct (json_data_total [results]) as (jd & Hjd); [by constructor|].
  pose proof (proj1 (json_data_iff _ _) Hjd) as HF.
  apply Forall2_cons_inv_l in HF as (jb & jd' & Hjb & ->%Forall2_nil_inv_l & ->).
  exists results, jb. split.
  { unfold main. rewrite (main_benchmarks_one _ _ _ _ _ _ d) by done.
    by rewrite Hbench, Hjd. }
  destruct Hjb as ((r0 & rest & -> & Hjbb & Hjbd) & Hq).
  destruct (exported_healthy _ _ _ _ _ Hres Hq) as (Hnames & Hcounts).
  apply Forall2_cons_inv_r in Hres as (q0 & qs & (Hb0 & _ & Hd0 & _) & _ & _).
  split; [congruence|]. split; [congruence|]. done.
Qed.

(** One Python benchmark between two others, one worker, two queries. *)
Lemma X18_main_exports_healthy_run_witness :
  exists jb,
    snd (main (<["edgedb" := MkBenchDesc "python" false]>
                 (<["golang_pgx" := MkBenchDesc "go" false]> ∅))
           (MkContext 1 10 0 ["get_user"%string; "get_movie"%string])
           (fun _ => MkWorld (fun _ _ => Returns <$> [50000; 70000])
                       (fun _ => false))
           (["golang_pgx"%string] ++ "edgedb"%string :: ["golang_pgx"%string])
           true)
    = Returned (Some [jb])
    /\ jq_queryname <$> jb_queries jb = ["get_user"%string; "get_movie"%string].
Proof.
  destruct (X18_main_exports_healthy_run
              (<["edgedb" := MkBenchDesc "python" false]>
                 (<["golang_pgx" := MkBenchDesc "go" false]> ∅))
              (MkContext 1 10 0 ["get_user"%string; "get_movie"%string])
              (fun _ => MkWorld (fun _ _ => Returns <$> [50000; 70000])
                          (fun _ => false))
              ["golang_pgx"%string] "edgedb" ["golang_pgx"%string]
              (MkBenchDesc "python" false))
    as (results & jb & Hmain & _ & _ & Hnames & _).
  - repeat constructor. exists (MkBenchDesc "go" false).
    split; [reflexivity|discriminate].
  - repeat constructor. exists (MkBenchDesc "go" false).
    split; [reflexivity|discriminate].
  - reflexivity.
  - reflexivity.
  - simpl. lia.
  - simpl. lia.
  - simpl. lia.
  - discriminate.
  - intros q _. split; [|reflexivity].
    intros i _. exists [50000; 70000]. split; [reflexivity|].
    repeat constructor; lia.
  - exists jb. split; [by rewrite Hmain|exact Hnames].
Defined.
